(** * GlobalMind summarization engine: the multi-agent pipeline of
    [backend/core/agentic_summarizer.py] and the scoring and fallback tables
    of [backend/core/ai_summarizer.py], embedded shallowly.

    Conventions of the embedding.
    - A Python [str] is a list of Unicode code points ([text]); [len] is
      [length].  Literals are decoded from their UTF-8 bytes.
    - A Python [float] is an exact rational ([Q]); rounding of IEEE doubles
      is not modelled.
    - A stage context is a [dict] object living in a heap and handed around
      by reference; [dict.copy] allocates a new object with the same
      bindings (a shallow copy).  Data that is built once and never mutated
      afterwards (the lists and records the stages publish) is carried by
      value.
    - Code that may raise returns an [outcome]; every modelled exception is
      a subclass of [Exception]. *)

From Stdlib Require Import QArith Lqa DecimalString.
From stdpp Require Import gmap strings list fin_maps.

Set Warnings "-register-all".
Open Scope Z_scope.

(** ** Text *)

Abbreviation char := N.
Abbreviation text := (list N).

Fixpoint utf8_decode (bs : list N) : text :=
  match bs with
  | [] => []
  | b0 :: r0 =>
    if (b0 <? 128)%N then b0 :: utf8_decode r0
    else if (b0 <? 224)%N then
      match r0 with
      | b1 :: r1 => ((b0 - 192) * 64 + (b1 - 128))%N :: utf8_decode r1
      | [] => [b0]
      end
    else if (b0 <? 240)%N then
      match r0 with
      | b1 :: b2 :: r2 =>
        ((b0 - 224) * 4096 + (b1 - 128) * 64 + (b2 - 128))%N :: utf8_decode r2
      | _ => [b0]
      end
    else
      match r0 with
      | b1 :: b2 :: b3 :: r3 =>
        ((b0 - 240) * 262144 + (b1 - 128) * 4096 + (b2 - 128) * 64 + (b3 - 128))%N
          :: utf8_decode r3
      | _ => [b0]
      end
  end.

Fixpoint bytes_of_string (s : string) : list N :=
  match s with
  | EmptyString => []
  | String a r => Ascii.N_of_ascii a :: bytes_of_string r
  end.

Definition utf8 (s : string) : text := utf8_decode (bytes_of_string s).

(** A literal: [§"abc"] is the text of the Python literal ['abc']. *)
Notation "§ s" := (utf8 s%string) (at level 1, s at level 0, format "§ s").

Definition SPACE : char := 32%N.
Definition DOT : char := 46%N.

(** [str.isspace], which is also the class [\s] of [re] on [str]. *)
Definition is_space (c : char) : bool :=
  ((9 <=? c) && (c <=? 13) || (28 <=? c) && (c <=? 32) || (c =? 133) || (c =? 160)
   || (c =? 5760) || (8192 <=? c) && (c <=? 8202) || (c =? 8232) || (c =? 8233)
   || (c =? 8239) || (c =? 8287) || (c =? 12288))%N.

Definition text_eqb (a b : text) : bool := bool_decide (a = b).

(** Maximal runs of characters satisfying [p]: [str.split()] for the
    non-blank characters, [re.findall(r'\w+', _)] for the word characters. *)
Fixpoint runs_aux (p : char -> bool) (cur : text) (t : text) : list text :=
  match t with
  | [] => match cur with [] => [] | _ => [rev cur] end
  | c :: r =>
    if p c then runs_aux p (c :: cur) r
    else match cur with
         | [] => runs_aux p [] r
         | _ => rev cur :: runs_aux p [] r
         end
  end.

Definition runs (p : char -> bool) (t : text) : list text := runs_aux p [] t.

(** [text.split()] *)
Definition split_ws (t : text) : list text := runs (fun c => negb (is_space c)) t.

(** [text.split(sep)] for a one-character separator and [re.split] on a
    character class: empty pieces are kept. *)
Fixpoint split_on_aux (sep : char -> bool) (cur : text) (t : text) : list text :=
  match t with
  | [] => [rev cur]
  | c :: r =>
    if sep c then rev cur :: split_on_aux sep [] r
    else split_on_aux sep (c :: cur) r
  end.

Definition split_on (sep : char -> bool) (t : text) : list text :=
  split_on_aux sep [] t.

Fixpoint lstrip (t : text) : text :=
  match t with
  | c :: r => if is_space c then lstrip r else t
  | [] => []
  end.

(** [text.strip()] *)
Definition strip (t : text) : text := rev (lstrip (rev (lstrip t))).

(** [text.endswith('.')] *)
Definition endswith_dot (t : text) : bool :=
  match rev t with
  | c :: _ => (c =? DOT)%N
  | [] => false
  end.

(** [re.sub(r'\s+', ' ', text)] *)
Fixpoint collapse_ws_aux (in_ws : bool) (t : text) : text :=
  match t with
  | [] => []
  | c :: r =>
    if is_space c then
      if in_ws then collapse_ws_aux true r else SPACE :: collapse_ws_aux true r
    else c :: collapse_ws_aux false r
  end.

Definition collapse_ws (t : text) : text := collapse_ws_aux false t.

Fixpoint starts_with (p t : text) : option text :=
  match p, t with
  | [], _ => Some t
  | a :: p', b :: t' => if (a =? b)%N then starts_with p' t' else None
  | _ :: _, [] => None
  end.

Definition HTTP : text := Eval vm_compute in utf8 "http://".
Definition HTTPS : text := Eval vm_compute in utf8 "https://".

(** Does [https?://\S+] match at the head of [t]? *)
Definition url_at (t : text) : bool :=
  let tail_ok o := match o with
                   | Some (c :: _) => negb (is_space c)
                   | _ => false
                   end in
  tail_ok (starts_with HTTP t) || tail_ok (starts_with HTTPS t).

(** [re.sub(r'https?://\S+', '', text)]: a match runs to the next blank, so
    the scan drops characters while [skipping]. *)
Fixpoint strip_urls_aux (skipping : bool) (t : text) : text :=
  match t with
  | [] => []
  | c :: r =>
    if is_space c then c :: strip_urls_aux false r
    else if skipping then strip_urls_aux true r
    else if url_at t then strip_urls_aux true r
    else c :: strip_urls_aux false r
  end.

Definition strip_urls (t : text) : text := strip_urls_aux false t.

Definition is_upper_ascii (c : char) : bool := ((65 <=? c) && (c <=? 90))%N.
Definition is_lower_ascii (c : char) : bool := ((97 <=? c) && (c <=? 122))%N.

(** ** Values, exceptions, heap *)

Abbreviation loc := nat.

Inductive value :=
| VNone
| VBool (b : bool)
| VInt (z : Z)
| VFloat (q : Q)
| VStr (t : text)
| VList (l : list value)
| VDict (d : list (text * value))
| VRef (l : loc).

Inductive exn :=
| AttributeError (obj : value) (attr : string)
| TypeError (op : string) (obj : value)
| KeyError (key : text)
| StageFailure (msg : text).

Inductive outcome (A : Type) :=
| Returned (a : A)
| Raised (e : exn).
Arguments Returned {A} a.
Arguments Raised {A} e.

Definition obind {A B} (m : outcome A) (k : A -> outcome B) : outcome B :=
  match m with
  | Returned a => k a
  | Raised e => Raised e
  end.

Notation "'let*' x ':=' m 'in' k" := (obind m (fun x => k))
  (at level 10, x name, m at level 100, k at level 200).

(** What the interpreter supplies: Unicode case folding, the [\w] class of
    [re], the rendering [str(e)] of an exception, the rendering of a value
    that is not a [str] inside an f-string, and the ISO rendering of the
    n-th reading of the clock. *)
Class PyRuntime := {
  lower : text -> text;
  is_word : char -> bool;
  str_exn : exn -> text;
  str_value : value -> text;
  isoformat : nat -> text
}.

(** The heap holds the [dict] objects that are shared by reference; [clock]
    counts the calls of [datetime.now()]. *)
Record store := mkStore {
  heap : gmap loc (gmap text value);
  next : loc;
  clock : nat
}.

Definition ctx_of (st : store) (l : loc) : gmap text value :=
  default ∅ (heap st !! l).

(** [context.get(key, dflt)] *)
Definition ctx_get (st : store) (l : loc) (k : text) (dflt : value) : value :=
  default dflt (ctx_of st l !! k).

(** [context[key] = v] *)
Definition ctx_set (l : loc) (k : text) (v : value) (st : store) : store :=
  mkStore (<[l := <[k := v]> (ctx_of st l)]> (heap st)) (next st) (clock st).

(** A new [dict] object with the bindings [d]. *)
Definition alloc (d : gmap text value) (st : store) : loc * store :=
  (next st, mkStore (<[next st := d]> (heap st)) (S (next st)) (clock st)).

(** [context.copy()] *)
Definition ctx_copy (l : loc) (st : store) : loc * store :=
  alloc (ctx_of st l) st.

(** One reading of the clock. *)
Definition tick (st : store) : store :=
  mkStore (heap st) (next st) (S (clock st)).

(** [datetime.now().isoformat()] *)
Definition now `{PyRuntime} (st : store) : value * store :=
  (VStr (isoformat (clock st)), tick st).

(** [dict[k] = v] on a dict carried by value: the binding is replaced in
    place when the key exists and appended otherwise. *)
Fixpoint dict_set (k : text) (v : value) (d : list (text * value))
  : list (text * value) :=
  match d with
  | [] => [(k, v)]
  | (k', v') :: r =>
    if text_eqb k k' then (k, v) :: r else (k', v') :: dict_set k v r
  end.

Fixpoint dict_lookup (k : text) (d : list (text * value)) : option value :=
  match d with
  | [] => None
  | (k', v') :: r => if text_eqb k k' then Some v' else dict_lookup k r
  end.

(** ** Composition primitives *)

(** [BaseAgent]: a name and [run_async], which receives the context object
    and returns a context object or raises. *)
Record BaseAgent := mkAgent {
  name : text;
  run_async : loc -> store -> store * outcome loc
}.

Module SequentialAgent.

(** [for agent in self.sub_agents: context = await agent.run_async(context)] *)
Fixpoint run_loop (sub_agents : list BaseAgent) (context : loc) (st : store)
  : store * outcome loc :=
  match sub_agents with
  | [] => (st, Returned context)
  | agent :: rest =>
    match run_async agent context st with
    | (st1, Returned context1) => run_loop rest context1 st1
    | (st1, Raised e) => (st1, Raised e)
    end
  end.

Definition run_async (sub_agents : list BaseAgent) (context : loc) (st : store)
  : store * outcome loc :=
  run_loop sub_agents context st.

End SequentialAgent.

Module ParallelAgent.

(** The first loop: one shallow copy of the context per child, taken in
    registration order, before any child has run ([create_task] only
    schedules the coroutine). *)
Fixpoint create_tasks (sub_agents : list BaseAgent) (context : loc) (st : store)
  : list (BaseAgent * loc) * store :=
  match sub_agents with
  | [] => ([], st)
  | agent :: rest =>
    let '(agent_context, st1) := ctx_copy context st in
    let '(tasks, st2) := create_tasks rest context st1 in
    ((agent, agent_context) :: tasks, st2)
  end.

(** The second loop.  The children have no suspension point of their own,
    so the event loop runs each task to completion in creation order; the
    [try]/[except Exception] turns a raised child into an error record. *)
Fixpoint await_tasks `{PyRuntime} (tasks : list (BaseAgent * loc))
    (results : list (text * value)) (st : store)
  : list (text * value) * store :=
  match tasks with
  | [] => (results, st)
  | (agent, agent_context) :: rest =>
    match run_async agent agent_context st with
    | (st1, Returned result) =>
      await_tasks rest (dict_set (name agent) (VRef result) results) st1
    | (st1, Raised e) =>
      await_tasks rest
        (dict_set (name agent) (VDict [(§"error", VStr (str_exn e))]) results) st1
    end
  end.

Definition run_async `{PyRuntime} (sub_agents : list BaseAgent) (context : loc)
    (st : store) : store * outcome loc :=
  match sub_agents with
  | [] => (st, Returned context)
  | _ =>
    let '(tasks, st1) := create_tasks sub_agents context st in
    let '(results, st2) := await_tasks tasks [] st1 in
    (ctx_set context §"parallel_results" (VDict results) st2, Returned context)
  end.

End ParallelAgent.

(** ** Dynamic typing helpers *)

(** Truth value of an object ([if not text], [if themes], ...). *)
Definition truthy (st : store) (v : value) : bool :=
  match v with
  | VNone => false
  | VBool b => b
  | VInt z => negb (z =? 0)
  | VFloat q => negb (Qeq_bool q 0)
  | VStr t => match t with [] => false | _ => true end
  | VList l => match l with [] => false | _ => true end
  | VDict d => match d with [] => false | _ => true end
  | VRef l => negb (bool_decide (ctx_of st l = ∅))
  end.

(** [list], [dict] and dict objects cannot be hashed. *)
Definition hashable (v : value) : bool :=
  match v with
  | VList _ | VDict _ | VRef _ => false
  | _ => true
  end.

Definition num_of (v : value) : option Q :=
  match v with
  | VBool b => Some (if b then 1%Q else 0%Q)
  | VInt z => Some (inject_Z z)
  | VFloat q => Some q
  | _ => None
  end.

(** [==] on hashable values: numbers compare by value across [bool], [int]
    and [float]; strings by their code points. *)
Definition py_eqb (a b : value) : bool :=
  match a, b with
  | VNone, VNone => true
  | VStr s, VStr t => text_eqb s t
  | _, _ =>
    match num_of a, num_of b with
    | Some x, Some y => Qeq_bool x y
    | _, _ => false
    end
  end.

(** [obj.get(key, dflt)] *)
Definition dict_get (st : store) (obj : value) (k : text) (dflt : value)
  : outcome value :=
  match obj with
  | VDict d => Returned (default dflt (dict_lookup k d))
  | VRef l => Returned (ctx_get st l k dflt)
  | _ => Raised (AttributeError obj "get")
  end.

(** [obj[key]] for a [str] key *)
Definition getitem (st : store) (obj : value) (k : text) : outcome value :=
  match obj with
  | VDict d =>
    match dict_lookup k d with
    | Some v => Returned v
    | None => Raised (KeyError k)
    end
  | VRef l =>
    match ctx_of st l !! k with
    | Some v => Returned v
    | None => Raised (KeyError k)
    end
  | _ => Raised (TypeError "getitem" obj)
  end.

(** The elements a [for] loop visits. *)
Definition py_iter (st : store) (v : value) : outcome (list value) :=
  match v with
  | VList l => Returned l
  | VStr t => Returned (map (fun c => VStr [c]) t)
  | VDict d => Returned (map (fun kv => VStr (fst kv)) d)
  | VRef l => Returned (map (fun kv => VStr (fst kv)) (map_to_list (ctx_of st l)))
  | _ => Raised (TypeError "iter" v)
  end.

(** [obj.lower()] *)
Definition py_lower `{PyRuntime} (obj : value) : outcome text :=
  match obj with
  | VStr t => Returned (lower t)
  | _ => Raised (AttributeError obj "lower")
  end.

(** The text an f-string inserts for [{obj}]. *)
Definition format_value `{PyRuntime} (obj : value) : text :=
  match obj with
  | VStr t => t
  | _ => str_value obj
  end.

(** [min(a, b)] and [max(a, b)] of Python: the first argument wins ties. *)
Definition py_min (a b : Q) : Q := if Qle_bool a b then a else b.
Definition py_max (a b : Q) : Q := if Qle_bool b a then a else b.

(** [set(words)], kept in order of first occurrence. *)
Fixpoint text_set (ws : list text) : list text :=
  match ws with
  | [] => []
  | w :: r => w :: List.filter (fun x => negb (text_eqb w x)) (text_set r)
  end.

Definition text_in (w : text) (ws : list text) : bool :=
  existsb (text_eqb w) ws.

(** [needle in haystack] on strings *)
Fixpoint is_substring (needle hay : text) : bool :=
  match starts_with needle hay with
  | Some _ => true
  | None => match hay with
            | [] => false
            | _ :: r => is_substring needle r
            end
  end.

(** [for each x in xs: f x], stopping at the first exception. *)
Fixpoint mapM {A B} (f : A -> outcome B) (xs : list A) : outcome (list B) :=
  match xs with
  | [] => Returned []
  | x :: r =>
    let* y := f x in
    let* ys := mapM f r in
    Returned (y :: ys)
  end.

(** [enumerate(xs)] *)
Fixpoint enumerate_from {A} (i : Z) (xs : list A) : list (Z * A) :=
  match xs with
  | [] => []
  | x :: r => (i, x) :: enumerate_from (i + 1) r
  end.

Definition len {A} (l : list A) : Z := Z.of_nat (length l).

(** ** The specialised stages *)

Module DataFetcherAgent.

Definition _clean_text (st : store) (txt : value) : outcome text :=
  if negb (truthy st txt) then Returned []
  else match txt with
       | VStr t => Returned (strip (strip_urls (collapse_ws t)))
       | _ => Raised (TypeError "re.sub" txt)
       end.

Definition _calculate_initial_relevance `{PyRuntime} (st : store)
    (result query : value) : outcome Q :=
  let* title0 := dict_get st result §"title" (VStr []) in
  let* title := py_lower title0 in
  let* snippet0 := dict_get st result §"snippet" (VStr []) in
  let* snippet := py_lower snippet0 in
  let* query_lower := py_lower query in
  let query_words := text_set (split_ws query_lower) in
  let title_matches := len (List.filter (fun word => is_substring word title) query_words) in
  let snippet_matches := len (List.filter (fun word => is_substring word snippet) query_words) in
  if len query_words =? 0 then Returned (1 # 2)%Q
  else
    let relevance :=
      (inject_Z (title_matches * 2 + snippet_matches) / inject_Z (len query_words * 3))%Q in
    Returned (py_min relevance 1%Q).

Definition process_result `{PyRuntime} (st : store) (query : value)
    (entry : Z * value) : outcome value :=
  let '(idx, result) := entry in
  let* title0 := dict_get st result §"title" (VStr []) in
  let* title := _clean_text st title0 in
  let* snippet0 := dict_get st result §"snippet" (VStr []) in
  let* snippet := _clean_text st snippet0 in
  let* source := dict_get st result §"source" (VStr §"unknown") in
  let* relevance := _calculate_initial_relevance st result query in
  Returned (VDict [(§"title", VStr title); (§"snippet", VStr snippet);
                   (§"source", source); (§"position", VInt idx);
                   (§"relevance_score", VFloat relevance)]).

Definition run_async `{PyRuntime} (context : loc) (st : store)
  : store * outcome loc :=
  let search_results := ctx_get st context §"search_results" (VList []) in
  let query := ctx_get st context §"query" (VStr []) in
  match (let* items := py_iter st search_results in
         mapM (process_result st query) (enumerate_from 0 items)) with
  | Raised e => (st, Raised e)
  | Returned processed_results =>
    let st1 := ctx_set context §"processed_results" (VList processed_results) st in
    let '(stamp, st2) := now st1 in
    (ctx_set context §"fetch_timestamp" stamp st2, Returned context)
  end.

Definition agent `{PyRuntime} : BaseAgent := mkAgent §"DataFetcher" run_async.

End DataFetcherAgent.

(** [ScoredSentence]: the record the analysis publishes per sentence. *)
Record sentence_data := mkSentence {
  s_text : text;
  s_score : Q;
  s_source : value;
  s_position : value
}.

Definition sentence_value (s : sentence_data) : value :=
  VDict [(§"text", VStr (s_text s)); (§"score", VFloat (s_score s));
         (§"source", s_source s); (§"position", s_position s)].

(** [xs.sort(key=..., reverse=True)]: stable, descending. *)
Fixpoint insert_desc {A} (key : A -> Q) (x : A) (l : list A) : list A :=
  match l with
  | [] => [x]
  | y :: r =>
    if Qle_bool (key y) (key x) then x :: y :: r
    else y :: insert_desc key x r
  end.

Definition sort_desc {A} (key : A -> Q) (l : list A) : list A :=
  foldr (insert_desc key) [] l.

(** [collections.Counter], in order of first insertion. *)
Fixpoint counter_add (w : text) (c : list (text * Z)) : list (text * Z) :=
  match c with
  | [] => [(w, 1)]
  | (k, n) :: r =>
    if text_eqb w k then (k, n + 1) :: r else (k, n) :: counter_add w r
  end.

Definition counter_update (c : list (text * Z)) (ws : list text) : list (text * Z) :=
  fold_left (fun acc w => counter_add w acc) ws c.

Definition most_common (n : nat) (c : list (text * Z)) : list (text * Z) :=
  firstn n (sort_desc (fun kv => inject_Z (snd kv)) c).

(** [re.split(r'[.!?।॥]', text)], stripped, without the empty pieces. *)
Definition is_sentence_end (c : char) : bool :=
  ((c =? 46) || (c =? 33) || (c =? 63) || (c =? 2404) || (c =? 2405))%N.

Definition split_sentences (t : text) : list text :=
  List.filter (fun s => match s with [] => false | _ => true end)
         (map strip (split_on is_sentence_end t)).

(** [re.findall(r'\b[A-Z][a-z]+\b', sentence)].  ASCII letters are word
    characters, so a candidate is a capital at a word start followed by the
    whole run of small letters, and it matches when the run is not empty and
    ends at a word end. [cand] is the candidate read so far, reversed. *)
Fixpoint find_entities `{PyRuntime} (cand : option text) (prev_word : bool)
    (t : text) : list text :=
  let wordish c := is_word c || is_upper_ascii c || is_lower_ascii c in
  match t with
  | [] =>
    match cand with
    | Some (a :: b :: acc) => [rev (a :: b :: acc)]
    | _ => []
    end
  | c :: r =>
    match cand with
    | Some acc =>
      if is_lower_ascii c then find_entities (Some (c :: acc)) true r
      else
        match acc with
        | a :: b :: acc' =>
          if wordish c then find_entities None true r
          else rev acc :: find_entities None false r
        | _ => find_entities None (wordish c) r
        end
    | None =>
      if is_upper_ascii c && negb prev_word then find_entities (Some [c]) true r
      else find_entities None (wordish c) r
    end
  end.

(** A literal table keyed by language name. *)
Fixpoint table_lookup {A} (k : text) (table : list (text * A)) : option A :=
  match table with
  | [] => None
  | (k', a) :: r => if text_eqb k k' then Some a else table_lookup k r
  end.

(** [table.get(language, dflt)]: the key is hashed first. *)
Definition table_get {A} (table : list (text * A)) (language : value) (dflt : A)
  : outcome A :=
  if negb (hashable language) then Raised (TypeError "hash" language)
  else match language with
       | VStr l => Returned (default dflt (table_lookup l table))
       | _ => Returned dflt
       end.

Module ContentAnalyzerAgent.

Definition _extract_sentences (t : text) : list text := split_sentences t.

(** [language] is accepted and not consulted. *)
Definition _score_sentence `{PyRuntime} (sentence query : text) (position : Q)
    (language : value) : Q :=
  let position_score := (py_max 0 ((5 - position) / 5) * (3 # 10))%Q in
  let words := split_ws sentence in
  let length_score := (py_min (inject_Z (len words) / 15) 1 * (2 # 10))%Q in
  let score := (0 + position_score + length_score)%Q in
  let query_words := text_set (split_ws (lower query)) in
  let sentence_words := text_set (split_ws (lower sentence)) in
  let score :=
    match query_words with
    | [] => score
    | _ =>
      let overlap :=
        (inject_Z (len (List.filter (fun w => text_in w sentence_words) query_words))
         / inject_Z (len query_words))%Q in
      (score + overlap * (5 # 10))%Q
    end in
  py_min score 1%Q.

Definition stop_words : list (text * list text) :=
  [(§"english", [§"the"; §"a"; §"an"; §"and"; §"or"; §"but"; §"in"; §"on";
                 §"at"; §"to"; §"for"; §"of"; §"with"; §"by"]);
   (§"hindi", [§"का"; §"के"; §"को"; §"में"; §"और"; §"या"; §"से"; §"पर"; §"है"; §"हैं"]);
   (§"telugu", [§"మరియు"; §"లేదా"; §"లో"; §"పై"; §"కోసం"; §"తో"; §"ఇది"; §"అది"]);
   (§"marathi", [§"आणि"; §"किंवा"; §"मध्ये"; §"वर"; §"साठी"; §"सोबत"; §"हे"; §"ते"])].

(** The stop-word table is consulted only for a word longer than 3. *)
Definition _extract_themes `{PyRuntime} (sentence : text) (language : value)
  : outcome (list text) :=
  let words := runs is_word (lower sentence) in
  if existsb (fun w => 3 <? len w) words then
    let* stops := table_get stop_words language [] in
    Returned (firstn 3 (List.filter
                          (fun w => (3 <? len w) && negb (text_in w stops)) words))
  else Returned [].

Definition _extract_entities `{PyRuntime} (sentence : text) : list text :=
  find_entities None false sentence.

(** The body of the inner loop for one sentence: [None] when the sentence
    is too short. *)
Definition analyze_sentence `{PyRuntime} (st : store) (result query language : value)
    (sentence : text) : outcome (option (sentence_data * list text * list text)) :=
  if 4 <? len (split_ws sentence) then
    let* position := getitem st result §"position" in
    let* pos :=
      match num_of position with
      | Some q => Returned q
      | None => Raised (TypeError "sub" position)
      end in
    let* q :=
      match query with
      | VStr q => Returned q
      | _ => Raised (AttributeError query "lower")
      end in
    let score := _score_sentence sentence q pos language in
    let* source := getitem st result §"source" in
    let* themes := _extract_themes sentence language in
    Returned (Some (mkSentence sentence score source position, themes,
                    _extract_entities sentence))
  else Returned None.

Definition analyze_result `{PyRuntime} (st : store) (query language result : value)
  : outcome (list (option (sentence_data * list text * list text))) :=
  let* title := getitem st result §"title" in
  let* snippet := getitem st result §"snippet" in
  let content := format_value title ++ §". " ++ format_value snippet in
  mapM (analyze_sentence st result query language) (_extract_sentences content).

Definition run_async `{PyRuntime} (context : loc) (st : store)
  : store * outcome loc :=
  let processed_results := ctx_get st context §"processed_results" (VList []) in
  let query := ctx_get st context §"query" (VStr []) in
  let language := ctx_get st context §"language" (VStr §"english") in
  match (let* results := py_iter st processed_results in
         mapM (analyze_result st query language) results) with
  | Raised e => (st, Raised e)
  | Returned per_result =>
    let found := omap id (concat per_result) in
    let sentences := sort_desc s_score (map (fun x => fst (fst x)) found) in
    let themes := counter_update [] (concat (map (fun x => snd (fst x)) found)) in
    let entities := concat (map snd found) in
    let st1 := ctx_set context §"analyzed_sentences"
                       (VList (map sentence_value sentences)) st in
    let st2 := ctx_set context §"themes"
                 (VDict (map (fun kv => (fst kv, VInt (snd kv))) (most_common 10 themes)))
                 st1 in
    let st3 := ctx_set context §"entities" (VList (map VStr (text_set entities))) st2 in
    let '(stamp, st4) := now st3 in
    (ctx_set context §"analysis_timestamp" stamp st4, Returned context)
  end.

Definition agent `{PyRuntime} : BaseAgent := mkAgent §"ContentAnalyzer" run_async.

End ContentAnalyzerAgent.

Definition ELLIPSIS : text := Eval vm_compute in §"...".
Definition max_length : Z := 400.

(** [seq[:n]] for a list *)
Definition slice_to {A} (n : Z) (l : list A) : list A :=
  if 0 <=? n then firstn (Z.to_nat n) l
  else firstn (Z.to_nat (len l + n)) l.

(** [sep.join(parts)] *)
Fixpoint join (sep : text) (parts : list text) : text :=
  match parts with
  | [] => []
  | [p] => p
  | p :: r => p ++ sep ++ join sep r
  end.

Definition join_space (parts : list text) : text := join [SPACE] parts.
Definition join_comma (parts : list text) : text := join §", " parts.

(** [len(obj)] *)
Definition py_len (st : store) (obj : value) : outcome Z :=
  match obj with
  | VStr t => Returned (len t)
  | VList l => Returned (len l)
  | VDict d => Returned (len d)
  | VRef l => Returned (Z.of_nat (size (ctx_of st l)))
  | _ => Raised (TypeError "len" obj)
  end.

(** [list(obj.keys())] *)
Definition dict_keys (st : store) (obj : value) : outcome (list text) :=
  match obj with
  | VDict d => Returned (map fst d)
  | VRef l => Returned (map fst (map_to_list (ctx_of st l)))
  | _ => Raised (AttributeError obj "keys")
  end.

(** [set(values)]: every element is hashed. *)
Fixpoint value_set (vs : list value) : list value :=
  match vs with
  | [] => []
  | v :: r => v :: List.filter (fun x => negb (py_eqb v x)) (value_set r)
  end.

Definition make_set (vs : list value) : outcome (list value) :=
  match List.filter (fun v => negb (hashable v)) vs with
  | bad :: _ => Raised (TypeError "hash" bad)
  | [] => Returned (value_set vs)
  end.

(** The decimal text of an [int] inside an f-string. *)
Definition str_int (z : Z) : text :=
  utf8 (DecimalString.NilZero.string_of_int (Z.to_int z)).

(** [obj[:n]] *)
Definition py_slice (n : Z) (obj : value) : outcome value :=
  match obj with
  | VList l => Returned (VList (slice_to n l))
  | VStr t => Returned (VStr (slice_to n t))
  | _ => Raised (TypeError "slice" obj)
  end.

(** [sep.join(obj)]: the elements must be strings. *)
Definition py_join (st : store) (sep : text) (obj : value) : outcome text :=
  let* items := py_iter st obj in
  let* parts :=
    mapM (fun v => match v with
                   | VStr t => Returned t
                   | _ => Raised (TypeError "join" v)
                   end) items in
  Returned (join sep parts).

(** [x in used] for a set of hashable values *)
Definition value_in (x : value) (used : list value) : outcome bool :=
  if negb (hashable x) then Raised (TypeError "hash" x)
  else Returned (existsb (py_eqb x) used).

Module SummaryGeneratorAgent.

Definition _extract_themes_from_text `{PyRuntime} (txt : value) : outcome (list text) :=
  let* lowered := py_lower txt in
  Returned (firstn 3 (List.filter (fun w => 4 <? len w) (runs is_word lowered))).

(** The elements of [sentences[:10]] *)
Definition top10 (st : store) (sentences : value) : outcome (list value) :=
  let* top := py_slice 10 sentences in
  py_iter st top.

(** [sentence_data['score'] > 0.7] *)
Definition score_above (st : store) (sentence_data : value) : outcome bool :=
  let* score := getitem st sentence_data §"score" in
  match num_of score with
  | Some q => Returned (negb (Qle_bool q (7 # 10)))
  | None => Raised (TypeError "gt" score)
  end.

(** The loop of [_select_summary_sentences] over [sentences[:10]]. *)
Fixpoint select_loop `{PyRuntime} (st : store) (candidates : list value)
    (selected : list value) (used_sources : list value) (theme_coverage : list text)
  : outcome (list value) :=
  match candidates with
  | [] => Returned selected
  | sentence_data :: rest =>
    if 3 <=? len selected then Returned selected
    else
      let* source := getitem st sentence_data §"source" in
      let* txt := getitem st sentence_data §"text" in
      let* sentence_themes := _extract_themes_from_text txt in
      let* seen := value_in source used_sources in
      let source_diversity := negb seen || (len selected <? 2) in
      let theme_diversity :=
        negb (existsb (fun w => text_in w theme_coverage) sentence_themes)
        || (len selected <? 2) in
      let* accept :=
        if source_diversity then
          if theme_diversity then Returned true
          else score_above st sentence_data
        else Returned false in
      if accept then
        select_loop st rest (selected ++ [sentence_data]) (source :: used_sources)
                    (theme_coverage ++ sentence_themes)
      else select_loop st rest selected used_sources theme_coverage
  end.

(** [themes] is accepted and not consulted. *)
Definition _select_summary_sentences `{PyRuntime} (st : store)
    (sentences themes : value) : outcome (list value) :=
  if negb (truthy st sentences) then Returned []
  else
    let* candidates := top10 st sentences in
    select_loop st candidates [] [] [].

Definition no_content_messages : list (text * text) :=
  [(§"hindi", §"पर्याप्त सामग्री उपलब्ध नहीं है।");
   (§"telugu", §"తగిన కంటెంట్ అందుబాటులో లేదు।");
   (§"marathi", §"पुरेशी सामग्री उपलब्ध नाही।");
   (§"english", §"Insufficient content available.")].

Definition _get_no_content_message (language : value) : outcome text :=
  table_get no_content_messages language §"Insufficient content available.".

(** The loop that rebuilds the summary piece by piece. *)
Fixpoint cut_loop (pieces : list text) (cut_summary : text) : text :=
  match pieces with
  | [] => cut_summary
  | sentence :: rest =>
    if max_length <? len (cut_summary ++ sentence) then cut_summary
    else cut_loop rest (cut_summary ++ sentence ++ §". ")
  end.

(** [s['text'].strip()] *)
Definition stripped_text (st : store) (s : value) : outcome text :=
  let* txt := getitem st s §"text" in
  match txt with
  | VStr t => Returned (strip t)
  | _ => Raised (AttributeError txt "strip")
  end.

Definition _compose_summary (st : store) (sentences : list value) (language : value)
  : outcome text :=
  match sentences with
  | [] => _get_no_content_message language
  | _ =>
    let* summary_parts := mapM (stripped_text st) sentences in
    let summary := collapse_ws (join_space summary_parts) in
    if max_length <? len summary then
      let cut := strip (cut_loop (split_on (fun c => (c =? DOT)%N) summary) []) in
      if negb (endswith_dot cut) then Returned (cut ++ ELLIPSIS)
      else Returned cut
    else Returned summary
  end.

Definition prefixes : list (text * text) :=
  [(§"hindi", §"📝 **AI सारांश**: ");
   (§"telugu", §"📝 **AI సారాంశం**: ");
   (§"marathi", §"📝 **AI सारांश**: ");
   (§"english", §"📝 **AI Summary**: ")].

Definition _format_summary_for_language (summary : text) (language : value)
  : outcome text :=
  let* prefix := table_get prefixes language §"📝 **AI Summary**: " in
  Returned (prefix ++ summary).

Definition run_async `{PyRuntime} (context : loc) (st : store)
  : store * outcome loc :=
  let analyzed_sentences := ctx_get st context §"analyzed_sentences" (VList []) in
  let themes := ctx_get st context §"themes" (VDict []) in
  let language := ctx_get st context §"language" (VStr §"english") in
  match (let* selected := _select_summary_sentences st analyzed_sentences themes in
         let* summary_text := _compose_summary st selected language in
         let* formatted := _format_summary_for_language summary_text language in
         Returned (selected, formatted)) with
  | Raised e => (st, Raised e)
  | Returned (selected_sentences, formatted_summary) =>
    let st1 := ctx_set context §"generated_summary" (VStr formatted_summary) st in
    let st2 := ctx_set context §"summary_sentences" (VList selected_sentences) st1 in
    let '(stamp, st3) := now st2 in
    (ctx_set context §"generation_timestamp" stamp st3, Returned context)
  end.

Definition agent `{PyRuntime} : BaseAgent := mkAgent §"SummaryGenerator" run_async.

End SummaryGeneratorAgent.

Module CriticAgent.

(** [set(query.lower().split())], then [set(summary.lower().split())] *)
Definition word_sets `{PyRuntime} (query summary : value)
  : outcome (list text * list text) :=
  let* q := py_lower query in
  let* s := py_lower summary in
  Returned (text_set (split_ws q), text_set (split_ws s)).

Definition common (a b : list text) : Z :=
  len (List.filter (fun w => text_in w b) a).

Definition _analyze_summary_quality `{PyRuntime} (st : store)
    (summary query themes : value) : outcome Q :=
  if negb (truthy st summary) then Returned 0%Q
  else
    let* length := py_len st summary in
    let score :=
      if (100 <=? length) && (length <=? 500) then (3 # 10)%Q
      else if 50 <? length then (15 # 100)%Q
      else 0%Q in
    let* sets := word_sets query summary in
    let '(query_words, summary_words) := sets in
    let score :=
      match query_words with
      | [] => score
      | _ => (score + inject_Z (common query_words summary_words)
                      / inject_Z (len query_words) * (4 # 10))%Q
      end in
    let* score :=
      if truthy st themes then
        let* keys := dict_keys st themes in
        let theme_words := text_set keys in
        Returned (score + inject_Z (common theme_words summary_words)
                          / inject_Z (len theme_words) * (3 # 10))%Q
      else Returned score in
    Returned (py_min score 1%Q).

Definition _generate_improvement_suggestions `{PyRuntime} (st : store)
    (summary query language : value) : outcome (list text) :=
  let* length := py_len st summary in
  let suggestions :=
    if length <? 50 then [§"summary_too_short"]
    else if 600 <? length then [§"summary_too_long"]
    else [] in
  let* sets := word_sets query summary in
  let '(query_words, summary_words) := sets in
  match query_words with
  | [] => Returned suggestions
  | _ =>
    if common query_words summary_words =? 0
    then Returned (suggestions ++ [§"low_query_relevance"])
    else Returned suggestions
  end.

Definition clarifications : list (text * text) :=
  [(§"hindi", §" (सीमित जानकारी के आधार पर)");
   (§"telugu", §" (పరిమిత సమాచారం ఆధారంగా)");
   (§"marathi", §" (मर्यादित माहितीच्या आधारावर)");
   (§"english", §" (based on limited information)")].

(** Reached only with a [str] summary: anything else has raised above. *)
Definition _apply_improvements (summary : text) (suggestions : list text)
    (language : value) : outcome text :=
  if text_in §"summary_too_long" suggestions then
    let sentences := split_on (fun c => (c =? DOT)%N) summary in
    if 3 <? len sentences
    then Returned (join §". " (slice_to 3 sentences) ++ §".")
    else Returned summary
  else if text_in §"summary_too_short" suggestions then
    let* clarification :=
      table_get clarifications language §" (based on limited information)" in
    Returned (summary ++ clarification)
  else Returned summary.

Definition run_async `{PyRuntime} (context : loc) (st : store)
  : store * outcome loc :=
  let summary := ctx_get st context §"generated_summary" (VStr []) in
  let query := ctx_get st context §"query" (VStr []) in
  let language := ctx_get st context §"language" (VStr §"english") in
  let themes := ctx_get st context §"themes" (VDict []) in
  match (let* quality_score := _analyze_summary_quality st summary query themes in
         let* suggestions := _generate_improvement_suggestions st summary query language in
         let* improved :=
           match summary with
           | VStr s => _apply_improvements s suggestions language
           | _ => Raised (AttributeError summary "lower")
           end in
         Returned (quality_score, suggestions, improved)) with
  | Raised e => (st, Raised e)
  | Returned (quality_score, suggestions, improved_summary) =>
    let st1 := ctx_set context §"final_summary" (VStr improved_summary) st in
    let st2 := ctx_set context §"quality_score" (VFloat quality_score) st1 in
    let st3 := ctx_set context §"critic_suggestions"
                       (VList (map VStr suggestions)) st2 in
    let '(stamp, st4) := now st3 in
    (ctx_set context §"critique_timestamp" stamp st4, Returned context)
  end.

Definition agent `{PyRuntime} : BaseAgent := mkAgent §"Critic" run_async.

End CriticAgent.

Module InsightExtractorAgent.

Definition themes_formats (theme_text : text) : list (text * text) :=
  [(§"hindi", §"🔍 **मुख्य विषय**: " ++ theme_text);
   (§"telugu", §"🔍 **ముఖ్య విషయాలు**: " ++ theme_text);
   (§"marathi", §"🔍 **मुख्य विषय**: " ++ theme_text);
   (§"english", §"🔍 **Key Topics**: " ++ theme_text)].

Definition _format_themes_insight (themes : list text) (language : value)
  : outcome text :=
  let theme_text := join_comma themes in
  table_get (themes_formats theme_text) language (§"🔍 **Key Topics**: " ++ theme_text).

Definition source_formats (count : Z) : list (text * text) :=
  [(§"hindi", §"📊 **स्रोत विविधता**: " ++ str_int count ++ §" विभिन्न स्रोतों से जानकारी");
   (§"telugu", §"📊 **మూల వైవిధ్యం**: " ++ str_int count ++ §" వేర్వేరు మూలాల నుండి సమాచారం");
   (§"marathi", §"📊 **स्रोत विविधता**: " ++ str_int count ++ §" वेगवेगळ्या स्रोतांकडून माहिती");
   (§"english", §"📊 **Source Diversity**: Information from " ++ str_int count
                 ++ §" different sources")].

Definition _format_source_insight (count : Z) (language : value) : outcome text :=
  table_get (source_formats count) language
    (§"📊 **Source Diversity**: Information from " ++ str_int count
      ++ §" different sources").

Definition entity_formats (entity_text : text) : list (text * text) :=
  [(§"hindi", §"🏷️ **मुख्य संस्थाएं**: " ++ entity_text);
   (§"telugu", §"🏷️ **ముఖ్య సంస్థలు**: " ++ entity_text);
   (§"marathi", §"🏷️ **मुख्य संस्था**: " ++ entity_text);
   (§"english", §"🏷️ **Key Entities**: " ++ entity_text)].

Definition _format_entity_insight (st : store) (entities language : value)
  : outcome text :=
  let* entity_text := py_join st §", " entities in
  table_get (entity_formats entity_text) language (§"🏷️ **Key Entities**: " ++ entity_text).

Definition insights `{PyRuntime} (st : store)
    (themes entities processed_results language : value) : outcome (list text) :=
  let* themes_part :=
    if truthy st themes then
      let* keys := dict_keys st themes in
      let* insight := _format_themes_insight (slice_to 5 keys) language in
      Returned [insight]
    else Returned [] in
  let* results := py_iter st processed_results in
  let* sources := mapM (fun r => getitem st r §"source") results in
  let* unique := make_set sources in
  let unique_sources := len unique in
  let* source_part :=
    if 1 <? unique_sources then
      let* source_insight := _format_source_insight unique_sources language in
      Returned [source_insight]
    else Returned [] in
  let* entity_part :=
    if truthy st entities then
      let* top_entities := py_slice 3 entities in
      let* entity_insight := _format_entity_insight st top_entities language in
      Returned [entity_insight]
    else Returned [] in
  Returned (themes_part ++ source_part ++ entity_part).

Definition run_async `{PyRuntime} (context : loc) (st : store)
  : store * outcome loc :=
  let themes := ctx_get st context §"themes" (VDict []) in
  let entities := ctx_get st context §"entities" (VList []) in
  let processed_results := ctx_get st context §"processed_results" (VList []) in
  let language := ctx_get st context §"language" (VStr §"english") in
  match insights st themes entities processed_results language with
  | Raised e => (st, Raised e)
  | Returned found =>
    let st1 := ctx_set context §"key_insights" (VList (map VStr found)) st in
    let '(stamp, st2) := now st1 in
    (ctx_set context §"insight_timestamp" stamp st2, Returned context)
  end.

Definition agent `{PyRuntime} : BaseAgent := mkAgent §"InsightExtractor" run_async.

End InsightExtractorAgent.

(** ** The coordinator *)

(** The [execution_details] of a compiled result. *)
Record ExecutionDetails := mkDetails {
  themes_found : Z;
  entities_found : Z;
  sentences_analyzed : Z;
  critic_suggestions : value;
  workflow_stages : list text
}.

(** The record every entry point returns ([SummaryResult] of the
    specification: [ai_summary] is its summary text, [confidence_score] its
    confidence, [summarization_method] the marker of the path taken). *)
Record SummaryResult := mkResult {
  r_query : value;
  r_language : value;
  ai_summary : value;
  key_insights : value;
  confidence_score : value;
  source_count : Z;
  sources : list value;
  timestamp : value;
  summarization_method : text;
  execution_details : option ExecutionDetails;
  error : option text
}.

Module AgenticSummarizer.

(** [_setup_workflow] *)
Definition analysis_pipeline `{PyRuntime} : BaseAgent :=
  mkAgent §"AnalysisPhase"
    (ParallelAgent.run_async [ContentAnalyzerAgent.agent; InsightExtractorAgent.agent]).

Definition generation_pipeline `{PyRuntime} : BaseAgent :=
  mkAgent §"GenerationPhase"
    (SequentialAgent.run_async [SummaryGeneratorAgent.agent; CriticAgent.agent]).

Definition main_workflow `{PyRuntime} : BaseAgent :=
  mkAgent §"MainWorkflow"
    (SequentialAgent.run_async
       [DataFetcherAgent.agent; analysis_pipeline; generation_pipeline]).

(** The entries of the result up to [sources]. *)
Definition compile_head (st : store) (context : loc)
  : outcome (value * value * Z * list value) :=
  let parallel_results := ctx_get st context §"parallel_results" (VDict []) in
  let* content_analysis := dict_get st parallel_results §"ContentAnalyzer" (VDict []) in
  let* insight_extraction := dict_get st parallel_results §"InsightExtractor" (VDict []) in
  let* insights := dict_get st insight_extraction §"key_insights" (VList []) in
  let processed := ctx_get st context §"processed_results" (VList []) in
  let* count := py_len st processed in
  let* top := py_slice 3 processed in
  let* top_items := py_iter st top in
  let* srcs := mapM (fun r => dict_get st r §"source" (VStr §"Unknown")) top_items in
  Returned (content_analysis, insights, count, srcs).

(** [execution_details] *)
Definition compile_details (st : store) (context : loc) (content_analysis : value)
  : outcome ExecutionDetails :=
  let* themes := dict_get st content_analysis §"themes" (VDict []) in
  let* n_themes := py_len st themes in
  let* entities := dict_get st content_analysis §"entities" (VList []) in
  let* n_entities := py_len st entities in
  let* sentences := dict_get st content_analysis §"analyzed_sentences" (VList []) in
  let* n_sentences := py_len st sentences in
  Returned (mkDetails n_themes n_entities n_sentences
                      (ctx_get st context §"critic_suggestions" (VList []))
                      [§"fetch"; §"analyze"; §"generate"; §"critique"]).

(** The timestamp is read between [sources] and [execution_details]. *)
Definition _compile_final_result `{PyRuntime} (context : loc) (st : store)
  : store * outcome SummaryResult :=
  match compile_head st context with
  | Raised e => (st, Raised e)
  | Returned (content_analysis, insights, count, srcs) =>
    let '(stamp, st1) := now st in
    (st1,
     let* details := compile_details st context content_analysis in
     Returned
       (mkResult (ctx_get st context §"query" (VStr []))
                 (ctx_get st context §"language" (VStr §"english"))
                 (ctx_get st context §"final_summary" (VStr []))
                 insights
                 (ctx_get st context §"quality_score" (VFloat 0))
                 count srcs stamp §"multi_agent_agentic" (Some details) None))
  end.

Definition error_messages : list (text * text) :=
  [(§"hindi", §"📝 **AI सारांश**: तकनीकी समस्या के कारण सारांश नहीं बना सका।");
   (§"telugu", §"📝 **AI సారాంశం**: సాంకేతిక సమస్య కారణంగా సారాంశం రూపొందించలేకపోయాం।");
   (§"marathi", §"📝 **AI सारांश**: तांत्रिक समस्येमुळे सारांश तयार करू शकलो नाही।");
   (§"english", §"📝 **AI Summary**: Unable to generate summary due to technical issues.")].

Definition _generate_error_result `{PyRuntime} (context : loc) (err : text) (st : store)
  : store * outcome SummaryResult :=
  let language := ctx_get st context §"language" (VStr §"english") in
  match table_get error_messages language
          §"📝 **AI Summary**: Unable to generate summary due to technical issues." with
  | Raised e => (st, Raised e)
  | Returned message =>
    let '(stamp, st1) := now st in
    (st1, Returned
            (mkResult (ctx_get st context §"query" (VStr [])) language (VStr message)
                      (VList []) (VFloat 0) 0 [] stamp §"error_fallback" None
                      (Some err)))
  end.

(** [try: ... except Exception as e: return self._generate_error_result(context, str(e))] *)
Definition run_async `{PyRuntime} (context : loc) (st : store)
  : store * outcome SummaryResult :=
  match run_async main_workflow context st with
  | (st1, Raised e) => _generate_error_result context (str_exn e) st1
  | (st1, Returned result_context) =>
    match _compile_final_result result_context st1 with
    | (st2, Raised e) => _generate_error_result context (str_exn e) st2
    | (st2, Returned final_result) => (st2, Returned final_result)
    end
  end.

Definition no_results_messages : list (text * text) :=
  [(§"hindi", §"📝 **AI सारांश**: इस विषय पर वर्तमान में जानकारी उपलब्ध नहीं है।");
   (§"telugu", §"📝 **AI సారాంశం**: ఈ విషయంపై ప్రస్తుతం సమాచారం అందుబాటులో లేదు।");
   (§"marathi", §"📝 **AI सारांश**: या विषयावर सध्या माहिती उपलब्ध नाही।");
   (§"english", §"📝 **AI Summary**: Information on this topic is currently not available.")].

Definition _generate_no_results_summary `{PyRuntime} (query language : text) (st : store)
  : store * outcome SummaryResult :=
  match table_get no_results_messages (VStr language)
          §"📝 **AI Summary**: Information on this topic is currently not available." with
  | Raised e => (st, Raised e)
  | Returned message =>
    let '(stamp, st1) := now st in
    (st1, Returned
            (mkResult (VStr query) (VStr language) (VStr message) (VList []) (VFloat 0)
                      0 [] stamp §"no_results_fallback" None None))
  end.

(** The context prepared for the agents. *)
Definition initial_context (search_results : list value) (query language : text)
    (max_results : Z) (stamp : value) : gmap text value :=
  <[§"search_results" := VList (slice_to max_results search_results)]>
    (<[§"query" := VStr query]>
       (<[§"language" := VStr language]>
          (<[§"max_results" := VInt max_results]>
             (<[§"start_timestamp" := stamp]> ∅)))).

Definition summarize_search_results `{PyRuntime} (search_results : list value)
    (query language : text) (max_results : Z) (st : store)
  : store * outcome SummaryResult :=
  match search_results with
  | [] => _generate_no_results_summary query language st
  | _ =>
    let '(stamp, st1) := now st in
    let '(context, st2) :=
      alloc (initial_context search_results query language max_results stamp) st1 in
    run_async context st2
  end.

End AgenticSummarizer.

(** ** The heuristic summarizer: the tables and scoring the pipeline shares *)

Module AISearchSummarizer.

(** [self.scoring_weights] *)
Definition position_weight : Q := (4 # 10)%Q.
Definition length_weight : Q := (3 # 10)%Q.
Definition keyword_weight : Q := (3 # 10)%Q.

(** [self.stop_words] *)
Definition stop_words : list (text * list text) :=
  [(§"english", [§"the"; §"a"; §"an"; §"and"; §"or"; §"but"; §"in"; §"on";
                 §"at"; §"to"; §"for"; §"of"; §"with"; §"by"]);
   (§"hindi", [§"का"; §"के"; §"को"; §"में"; §"और"; §"या"; §"से"; §"पर"; §"है"; §"हैं";
               §"था"; §"थे"; §"यह"; §"वह"]);
   (§"telugu", [§"మరియు"; §"లేదా"; §"లో"; §"పై"; §"కోసం"; §"తో"; §"ఇది"; §"అది";
                §"ఉంది"; §"ఉన్నారు"]);
   (§"marathi", [§"आणि"; §"किंवा"; §"मध्ये"; §"वर"; §"साठी"; §"सोबत"; §"हे"; §"ते";
                 §"आहे"; §"आहेत"])].

(** The body of [_score_sentence] once [stop_words] is looked up. *)
Definition score_with `{PyRuntime} (stops : list text) (sentence query : text)
    (position : Q) : Q :=
  let position_score := ((3 - position) / 3 * position_weight)%Q in
  let words := split_ws sentence in
  let length_score := (py_min (inject_Z (len words) / 20) 1 * length_weight)%Q in
  let score := (0 + position_score + length_score)%Q in
  let query_words := text_set (split_ws (lower query)) in
  let sentence_words := text_set (split_ws (lower sentence)) in
  let query_words := List.filter (fun w => negb (text_in w stops)) query_words in
  let sentence_words := List.filter (fun w => negb (text_in w stops)) sentence_words in
  match query_words with
  | [] => py_min score 1%Q
  | _ =>
    let keyword_overlap :=
      (inject_Z (len (List.filter (fun w => text_in w sentence_words) query_words))
       / inject_Z (len query_words))%Q in
    py_min (score + keyword_overlap * keyword_weight)%Q 1%Q
  end.

Definition _score_sentence `{PyRuntime} (sentence query : text) (position : Q)
    (language : value) : outcome Q :=
  let* stops := table_get stop_words language [] in
  Returned (score_with stops sentence query position).

Definition intros : list (text * text) :=
  [(§"hindi", §"📝 **AI सारांश**: ");
   (§"telugu", §"📝 **AI సారాంశం**: ");
   (§"marathi", §"📝 **AI सारांश**: ");
   (§"english", §"📝 **AI Summary**: ")].

Definition _format_summary_for_language (summary : text) (language : value)
  : outcome text :=
  let* intro := table_get intros language §"📝 **AI Summary**: " in
  Returned (intro ++ summary).

Definition english_messages : list (text * text) :=
  [(§"no_results", §"📝 **AI Summary**: Information on this topic is currently not available.");
   (§"no_content", §"📝 **AI Summary**: Insufficient content available.");
   (§"processing_error", §"📝 **AI Summary**: Error in information processing.")].

Definition messages : list (text * list (text * text)) :=
  [(§"hindi",
    [(§"no_results", §"📝 **AI सारांश**: इस विषय पर वर्तमान में जानकारी उपलब्ध नहीं है।");
     (§"no_content", §"📝 **AI सारांश**: पर्याप्त सामग्री उपलब्ध नहीं है।");
     (§"processing_error", §"📝 **AI सारांश**: जानकारी प्रसंस्करण में समस्या हुई।")]);
   (§"telugu",
    [(§"no_results", §"📝 **AI సారాంశం**: ఈ విషయంపై ప్రస్తుతం సమాచారం అందుబాటులో లేదు।");
     (§"no_content", §"📝 **AI సారాంశం**: తగిన కంటెంట్ అందుబాటులో లేదు।");
     (§"processing_error", §"📝 **AI సారాంశం**: సమాచార ప్రాసెసింగ్‌లో సమస్య.")]);
   (§"marathi",
    [(§"no_results", §"📝 **AI सारांश**: या विषयावर सध्या माहिती उपलब्ध नाही।");
     (§"no_content", §"📝 **AI सारांश**: पुरेशी सामग्री उपलब्ध नाही।");
     (§"processing_error", §"📝 **AI सारांश**: माहिती प्रक्रियेत समस्या.")]);
   (§"english", english_messages)].

Definition _get_default_message (language : value) (message_type : text)
  : outcome text :=
  let* table := table_get messages language english_messages in
  Returned (default §"No information available." (table_lookup message_type table)).

Definition _generate_no_results_summary `{PyRuntime} (query language : text) (st : store)
  : store * outcome SummaryResult :=
  match _get_default_message (VStr language) §"no_results" with
  | Raised e => (st, Raised e)
  | Returned message =>
    let '(stamp, st1) := now st in
    (st1, Returned
            (mkResult (VStr query) (VStr language) (VStr message) (VList []) (VFloat 0)
                      0 [] stamp §"fallback" None None))
  end.

End AISearchSummarizer.

(** ** The hybrid decision layer *)

Module HybridOrchestrator.

(** Modelled from the spec: [approach_used] of the normalized result,
    [enum{heuristic, pipeline, no_results, error}].  The hybrid orchestrator
    ([core/hybrid_summarizer.py]) is not among the sources; only its callers
    are. *)
Inductive Approach := heuristic | pipeline | no_results | error.

(** Modelled from the spec: the force flags of a request ([options] of
    [summarize]); the orchestrator that reads them is missing. *)
Record Options := mkOptions {
  force_lightweight : bool;
  force_agentic : bool
}.

(** Modelled from the spec: the configuration of the missing orchestrator,
    [use_agentic_by_default] and the thresholds [min_results] and
    [min_content_length], passed to [summarize] as explicit state. *)
Record Configuration := mkConfiguration {
  use_agentic_by_default : bool;
  min_results : Z;
  min_content_length : Z
}.

(** Modelled from the spec: the normalized [SummaryResult] the missing
    orchestrator returns, [{query, language, summary_text, key_insights,
    confidence, source_count, sources, approach_used, execution_details}]. *)
Record NormalizedResult := mkNormalized {
  n_query : text;
  n_language : text;
  summary_text : value;
  n_key_insights : value;
  confidence : value;
  n_source_count : Z;
  n_sources : list value;
  approach_used : Approach;
  n_execution_details : option ExecutionDetails
}.

(** Modelled from the spec: the normalization of the missing orchestrator,
    which brings the record of either path into the one result shape. *)
Definition normalize (approach : Approach) (query language : text) (r : SummaryResult)
  : NormalizedResult :=
  mkNormalized query language (ai_summary r) (key_insights r) (confidence_score r)
               (source_count r) (sources r) approach (execution_details r).

Section Paths.

(** The two paths the orchestrator chooses between, the texts of its own
    two records, and the measure of the combined content, which the
    specification leaves open. *)
Variable heuristic_path pipeline_path :
  list value -> text -> text -> store -> store * outcome SummaryResult.
Variable no_results_text error_text : text -> text.
Variable content_length : list value -> Z.

(** Modelled from the spec: the selection rule of the missing orchestrator.
    An explicit force flag always wins; otherwise the pipeline is used when
    it is the default, and the heuristic path when the result count and the
    combined content length fall below the configured minimums. *)
Definition select (cfg : Configuration) (opts : Options) (search_results : list value)
  : Approach :=
  if force_lightweight opts then heuristic
  else if force_agentic opts then pipeline
  else if use_agentic_by_default cfg then pipeline
  else if (len search_results <? min_results cfg)
          && (content_length search_results <? min_content_length cfg)
       then heuristic
       else pipeline.

(** Modelled from the spec: [HybridOrchestrator.summarize], missing from
    the sources.  On empty [search_results] it short-circuits to a
    [no_results] record without invoking either path; a failure of the
    pipeline is caught and degrades to the heuristic path, and to an [error]
    record when that fails too.  The first component lists the paths
    invoked, in order. *)
Definition summarize (cfg : Configuration) (opts : Options) (search_results : list value)
    (query language : text) (st : store)
  : list Approach * store * NormalizedResult :=
  let failed :=
    mkNormalized query language (VStr (error_text language)) (VList []) (VFloat 0) 0 []
                 error None in
  match search_results with
  | [] =>
    ([], st,
     mkNormalized query language (VStr (no_results_text language)) (VList []) (VFloat 0)
                  0 [] no_results None)
  | _ =>
    match select cfg opts search_results with
    | pipeline =>
      match pipeline_path search_results query language st with
      | (st1, Returned r) => ([pipeline], st1, normalize pipeline query language r)
      | (st1, Raised _) =>
        match heuristic_path search_results query language st1 with
        | (st2, Returned r) =>
          ([pipeline; heuristic], st2, normalize heuristic query language r)
        | (st2, Raised _) => ([pipeline; heuristic], st2, failed)
        end
      end
    | _ =>
      match heuristic_path search_results query language st with
      | (st1, Returned r) => ([heuristic], st1, normalize heuristic query language r)
      | (st1, Raised _) => ([heuristic], st1, failed)
      end
    end
  end.

End Paths.

End HybridOrchestrator.

(** ** A runtime for plain ASCII text

    On ASCII input these agree with the interpreter; they are used to run
    the model on concrete inputs. *)

Definition ascii_lower (t : text) : text :=
  map (fun c => if is_upper_ascii c then (c + 32)%N else c) t.

Definition ascii_is_word (c : char) : bool :=
  is_upper_ascii c || is_lower_ascii c || ((48 <=? c) && (c <=? 57))%N || (c =? 95)%N.

Definition ascii_str_exn (e : exn) : text :=
  match e with
  | AttributeError _ attr => §"no attribute " ++ utf8 attr
  | TypeError op _ => §"bad operand for " ++ utf8 op
  | KeyError k => k
  | StageFailure msg => msg
  end.

#[export] Instance ascii_runtime : PyRuntime := {|
  lower := ascii_lower;
  is_word := ascii_is_word;
  str_exn := ascii_str_exn;
  str_value := fun _ => §"<object>";
  isoformat := fun tick => str_int (Z.of_nat tick)
|}.

Definition empty_store : store := mkStore ∅ 0%nat 0%nat.

(** ** Observations and examples used by the statements below *)


(** The bindings each task finds in its own context when it starts. *)
Fixpoint task_inputs (tasks : list (BaseAgent * loc)) (st : store)
  : list (gmap text value) :=
  match tasks with
  | [] => []
  | (agent, agent_context) :: rest =>
    ctx_of st agent_context :: task_inputs rest (fst (run_async agent agent_context st))
  end.


(** A stage that assigns only top-level keys of the context it receives:
    no other object of the heap changes. *)
Definition writes_own_context (agent : BaseAgent) : Prop :=
  forall l st l', l' <> l -> heap (fst (run_async agent l st)) !! l' = heap st !! l'.

(** [raise RuntimeError('boom')] *)
Definition failing_stage : BaseAgent :=
  mkAgent §"Failing" (fun context st => (st, Raised (StageFailure §"boom"))).

(** [context['marked'] = True; return context] *)
Definition marking_stage : BaseAgent :=
  mkAgent §"Marking"
    (fun context st => (ctx_set context §"marked" (VBool true) st, Returned context)).

(** [context['shared']['flag'] = 1; return context] *)
Definition nested_writer : BaseAgent :=
  mkAgent §"Writer"
    (fun context st =>
       match ctx_of st context !! §"shared" with
       | Some (VRef shared) => (ctx_set shared §"flag" (VInt 1) st, Returned context)
       | Some other => (st, Raised (TypeError "setitem" other))
       | None => (st, Raised (KeyError §"shared"))
       end).

(** [context['seen'] = context['shared'].get('flag'); return context] *)
Definition nested_reader : BaseAgent :=
  mkAgent §"Reader"
    (fun context st =>
       match ctx_of st context !! §"shared" with
       | Some shared =>
         match dict_get st shared §"flag" VNone with
         | Returned flag => (ctx_set context §"seen" flag st, Returned context)
         | Raised e => (st, Raised e)
         end
       | None => (st, Raised (KeyError §"shared"))
       end).




(** One empty context at address 0. *)
Definition one_context : store := mkStore {[0%nat := ∅]} 1%nat 0%nat.

(** A context at address 0 whose key [shared] refers to the dict at 1. *)
Definition shared_context : store :=
  mkStore (<[0%nat := {[§"shared" := VRef 1%nat]}]> {[1%nat := ∅]}) 2%nat 0%nat.

(** The selection rule of the summary generator in the words of its
    specification: a candidate is judged against the sentences accepted so
    far. *)
Module DiversityPolicy.

Definition theme_set `{PyRuntime} (s : sentence_data) : list text :=
  firstn 3 (List.filter (fun w => 4 <? len w) (runs is_word (lower (s_text s)))).

Definition source_unused (accepted : list sentence_data) (c : sentence_data) : bool :=
  negb (existsb (py_eqb (s_source c)) (map s_source accepted)).

Definition covered_themes `{PyRuntime} (accepted : list sentence_data) : list text :=
  concat (map theme_set accepted).

Definition themes_overlap `{PyRuntime} (accepted : list sentence_data)
    (c : sentence_data) : bool :=
  existsb (fun w => text_in w (covered_themes accepted)) (theme_set c).

Definition accepts `{PyRuntime} (accepted : list sentence_data) (c : sentence_data)
  : bool :=
  (source_unused accepted c || (len accepted <? 2))
  && (negb (themes_overlap accepted c) || (len accepted <? 2)
      || negb (Qle_bool (s_score c) (7 # 10))).

Fixpoint scan `{PyRuntime} (candidates accepted : list sentence_data)
  : list sentence_data :=
  match candidates with
  | [] => accepted
  | c :: rest =>
    if 3 <=? len accepted then accepted
    else if accepts accepted c then scan rest (accepted ++ [c])
    else scan rest accepted
  end.

Definition select `{PyRuntime} (sentences : list sentence_data) : list sentence_data :=
  scan (firstn 10 sentences) [].

End DiversityPolicy.

(** One analysed sentence of exactly 400 letters, and a context that holds
    it for the summary generator. *)
Definition long_sentence : sentence_data :=
  mkSentence (repeat 97%N 400) (9 # 10) (VStr §"example.org") (VInt 0).

Definition long_context : store :=
  mkStore {[0%nat := <[§"analyzed_sentences" := VList [sentence_value long_sentence]]>
                       {[§"language" := VStr §"english"]}]} 1%nat 0%nat.

(** The composite score in the words of the specification: position,
    length and keyword overlap weighted 0.3, 0.2 and 0.5 and clamped to
    [0, 1], the overlap being taken over the query terms that are not stop
    words [stops] of the request language. *)
Definition composite_score `{PyRuntime} (stops : list text) (sentence query : text)
    (rank : Q) : Q :=
  let position_weight := py_max 0 ((5 - rank) / 5)%Q in
  let length_weight := py_min (inject_Z (len (split_ws sentence)) / 15)%Q 1%Q in
  let terms :=
    List.filter (fun w => negb (text_in w stops)) (text_set (split_ws (lower query))) in
  let present := List.filter (fun w => text_in w (split_ws (lower sentence))) terms in
  let keyword_overlap :=
    match terms with
    | [] => 0%Q
    | _ => (inject_Z (len present) / inject_Z (len terms))%Q
    end in
  py_max 0 (py_min ((3 # 10) * position_weight + (2 # 10) * length_weight
                    + (5 # 10) * keyword_overlap)%Q 1%Q).

(** A language tag outside the supported set. *)
Definition unsupported (language : text) : Prop :=
  language <> §"english" /\ language <> §"hindi"
  /\ language <> §"telugu" /\ language <> §"marathi".

(** A leaf stage: it assigns the keys [keys] of the context it receives and
    touches nothing else, allocates nothing, and returns that context when
    it returns. *)
Definition leaf_stage (keys : list text) (agent : BaseAgent) : Prop :=
  forall l st,
    next (fst (run_async agent l st)) = next st
    /\ (forall l', l' <> l -> heap (fst (run_async agent l st)) !! l' = heap st !! l')
    /\ (forall k, k ∉ keys ->
                  ctx_of (fst (run_async agent l st)) l !! k = ctx_of st l !! k)
    /\ (snd (run_async agent l st) = Returned l
        \/ exists e, snd (run_async agent l st) = Raised e).

















(** Two well-formed result records from different sources, and one from the
    first source again. *)
Definition sample_record (title snippet source : text) : value :=
  VDict [(§"title", VStr title); (§"snippet", VStr snippet); (§"source", VStr source)].

Definition sample_results : list value :=
  [sample_record §"Arctic ice" §"Arctic ice sheets are melting at a record rate this year."
                 §"arctic-studies.com";
   sample_record §"Solar power" §"Solar power is now cheaper than coal in many regions."
                 §"green-energy.org"].

Definition sample_sentences : list sentence_data :=
  [mkSentence §"Arctic ice sheets are melting quickly" (9 # 10) (VStr §"a.org") (VInt 0);
   mkSentence §"Arctic glaciers are melting quickly too" (8 # 10) (VStr §"a.org") (VInt 0);
   mkSentence §"Arctic ice sheets are shrinking" (6 # 10) (VStr §"a.org") (VInt 0);
   mkSentence §"Solar panels are getting cheaper" (5 # 10) (VStr §"b.org") (VInt 1)].

(** ** Further definitions: the agent hierarchy, the heuristic summarizer's
    text functions, and shapes used by the statements on them *)

(** ** The agent hierarchy

    [BaseAgent.sub_agents] as a tree: a hierarchy in which every agent is
    registered below one parent, as [_setup_workflow] builds it.  The
    upward link [parent_agent] is not read by any lookup. *)

Inductive AgentTree :=
| AgentNode (node_name : text) (node_subs : list AgentTree).

Definition node_name (a : AgentTree) : text :=
  match a with AgentNode n _ => n end.

Definition node_subs (a : AgentTree) : list AgentTree :=
  match a with AgentNode _ subs => subs end.

(** [BaseAgent.add_sub_agent]: the child is appended. *)
Definition add_sub_agent (self child : AgentTree) : AgentTree :=
  AgentNode (node_name self) (node_subs self ++ [child]).

(** [BaseAgent.find_agent]: the agent itself, else the first hit among the
    sub-agents, searched depth first in registration order. *)
Fixpoint find_agent (self : AgentTree) (n : text) : option AgentTree :=
  match self with
  | AgentNode m subs =>
    if text_eqb m n then Some (AgentNode m subs)
    else (fix find_in (agents : list AgentTree) : option AgentTree :=
            match agents with
            | [] => None
            | agent :: rest =>
              match find_agent agent n with
              | Some found => Some found
              | None => find_in rest
              end
            end) subs
  end.

(** The names in a hierarchy, in the order [find_agent] visits them. *)
Fixpoint agent_names (a : AgentTree) : list text :=
  match a with
  | AgentNode m subs =>
    m :: (fix names_in (agents : list AgentTree) : list text :=
            match agents with
            | [] => []
            | agent :: rest => agent_names agent ++ names_in rest
            end) subs
  end.

(** The agents of a hierarchy, in the order [find_agent] visits them. *)
Fixpoint agents_of (a : AgentTree) : list AgentTree :=
  match a with
  | AgentNode m subs =>
    AgentNode m subs
    :: (fix agents_in (agents : list AgentTree) : list AgentTree :=
          match agents with
          | [] => []
          | agent :: rest => agents_of agent ++ agents_in rest
          end) subs
  end.

Definition agents_in (agents : list AgentTree) : list AgentTree :=
  concat (map agents_of agents).

(** The search of [find_agent] among sub-agents, and the names below a list
    of agents, as functions of their own. *)
Fixpoint find_in (agents : list AgentTree) (n : text) : option AgentTree :=
  match agents with
  | [] => None
  | agent :: rest =>
    match find_agent agent n with
    | Some found => Some found
    | None => find_in rest n
    end
  end.

Definition names_in (agents : list AgentTree) : list text :=
  concat (map agent_names agents).

(** The hierarchy [_setup_workflow] builds. *)
Definition workflow_tree : AgentTree :=
  AgentNode §"MainWorkflow"
    [AgentNode §"DataFetcher" [];
     AgentNode §"AnalysisPhase"
       [AgentNode §"ContentAnalyzer" []; AgentNode §"InsightExtractor" []];
     AgentNode §"GenerationPhase"
       [AgentNode §"SummaryGenerator" []; AgentNode §"Critic" []]].

(** ** More of the heuristic summarizer *)

Module AISearchSummarizerText.

(** [trusted_domains], in the order of the literal. *)
Definition trusted_domains : list (text * Q) :=
  [(§"wikipedia.org", 9 # 10); (§"bbc.com", 9 # 10); (§"timesofindia.com", 8 # 10);
   (§"hindustantimes.com", 8 # 10); (§"thehindu.com", 8 # 10);
   (§"indianexpress.com", 8 # 10); (§"news18.com", 7 # 10); (§"ndtv.com", 8 # 10);
   (§"zeenews.india.com", 7 # 10)].

Fixpoint first_domain (lowered : text) (domains : list (text * Q)) : option Q :=
  match domains with
  | [] => None
  | (domain, score) :: rest =>
    if is_substring domain lowered then Some score else first_domain lowered rest
  end.

Definition _score_source_reliability `{PyRuntime} (source : text) : Q :=
  default (6 # 10)%Q (first_domain (lower source) trusted_domains).

Definition _split_into_sentences (t : text) : list text := split_sentences t.

(** [re.sub(r'\.{2,}', '.', text)] *)
Fixpoint collapse_dots_aux (in_dots : bool) (t : text) : text :=
  match t with
  | [] => []
  | c :: r =>
    if (c =? DOT)%N then
      if in_dots then collapse_dots_aux true r else DOT :: collapse_dots_aux true r
    else c :: collapse_dots_aux false r
  end.

Definition collapse_dots (t : text) : text := collapse_dots_aux false t.

(** The loop that refills [truncated] sentence by sentence. *)
Fixpoint truncate_loop (sentences : list text) (truncated : text) : text :=
  match sentences with
  | [] => truncated
  | sentence :: rest =>
    if max_length <? len (truncated ++ sentence) then truncated
    else truncate_loop rest (truncated ++ sentence ++ [SPACE])
  end.

(** [language] is accepted and not consulted. *)
Definition _clean_and_format_summary (t : text) (language : value) : text :=
  let t := collapse_dots (collapse_ws t) in
  let t :=
    if max_length <? len t then
      let cut := strip (truncate_loop (_split_into_sentences t) []) in
      if negb (endswith_dot cut) then cut ++ ELLIPSIS else cut
    else t in
  strip t.

End AISearchSummarizerText.

(** ** Shapes of text *)

(** Neither the first nor the last character is a blank. *)
Definition blank_free_ends (t : text) : Prop :=
  (forall c r, t = c :: r -> is_space c = false)
  /\ (forall c r, rev t = c :: r -> is_space c = false).

(** Every blank is a plain space. *)
Definition only_plain_blanks (t : text) : Prop :=
  Forall (fun c => is_space c = true -> c = SPACE) t.

(** What the generator composes from no sentence, and what the critic makes
    of it. *)
Definition empty_summary (language : text) : text :=
  default §"📝 **AI Summary**: " (table_lookup language SummaryGeneratorAgent.prefixes)
  ++ default §"Insufficient content available."
       (table_lookup language SummaryGeneratorAgent.no_content_messages).

Definition insufficient_notice (language : text) : text :=
  empty_summary language
  ++ default §" (based on limited information)"
       (table_lookup language CriticAgent.clarifications).

(** ** Order *)

(** No later score exceeds an earlier one. *)
Fixpoint descending (scores : list Q) : Prop :=
  match scores with
  | [] => True
  | a :: rest => Forall (fun b => (b <= a)%Q) rest /\ descending rest
  end.

(** The request context for the sample results, and the same after the
    fetch stage. *)
Definition request_store : store :=
  snd (alloc (AgenticSummarizer.initial_context sample_results §"arctic ice" §"english"
                3 VNone) empty_store).

Definition fetched_store : store :=
  fst (run_async (DataFetcherAgent.agent (H := ascii_runtime)) 0%nat request_store).

(** The record the fetch stage makes of a result at rank [idx]. *)
Definition fetched_record (idx : Z) (p : value) : Prop :=
  exists title snippet source relevance,
    p = VDict [(§"title", VStr title); (§"snippet", VStr snippet); (§"source", source);
               (§"position", VInt idx); (§"relevance_score", VFloat relevance)]
    /\ strip title = title /\ strip snippet = snippet.

(** * Properties *)

(** ** The heap *)

Lemma ctx_of_ctx_set l k v st l' :
  ctx_of (ctx_set l k v st) l' =
  if decide (l = l') then <[k := v]> (ctx_of st l) else ctx_of st l'.
Proof.
  unfold ctx_of, ctx_set; simpl. case_decide as Hl.
  - subst. by rewrite lookup_insert_eq.
  - by rewrite lookup_insert_ne.
Qed.

Lemma ctx_of_ctx_set_eq l k v st :
  ctx_of (ctx_set l k v st) l = <[k := v]> (ctx_of st l).
Proof. rewrite ctx_of_ctx_set. by case_decide. Qed.


Lemma ctx_of_heap st st' l : heap st' !! l = heap st !! l -> ctx_of st' l = ctx_of st l.
Proof. unfold ctx_of. by intros ->. Qed.

Lemma ctx_of_alloc d st l :
  ctx_of (snd (alloc d st)) l = if decide (next st = l) then d else ctx_of st l.
Proof.
  unfold ctx_of, alloc; simpl. case_decide as Hl.
  - subst. by rewrite lookup_insert_eq.
  - by rewrite lookup_insert_ne.
Qed.

(** ** Sequential composition *)

Lemma sequential_run_app pre post context st st1 context1 :
  SequentialAgent.run_async pre context st = (st1, Returned context1) ->
  SequentialAgent.run_async (pre ++ post) context st
  = SequentialAgent.run_async post context1 st1.
Proof.
  unfold SequentialAgent.run_async.
  revert context st. induction pre as [|agent pre IH]; intros context st Hpre; simpl in *.
  - by inversion Hpre.
  - destruct (run_async agent context st) as [st' [c'|e]]; [by apply IH | discriminate].
Qed.

(** C4, as the code has it: the exception of a failing child leaves the
    sequential composer unchanged; the stages registered after it are not
    run, and the composer itself writes nothing (no [errors] entry): the
    store is the one the failing child left. *)
Theorem sequential_failure_propagates
    (pre post : list BaseAgent) (agent : BaseAgent)
    (context context1 : loc) (st st1 st2 : store) (e : exn) :
  SequentialAgent.run_async pre context st = (st1, Returned context1) ->
  run_async agent context1 st1 = (st2, Raised e) ->
  SequentialAgent.run_async (pre ++ agent :: post) context st = (st2, Raised e).
Proof.
  intros Hpre Hfail. rewrite (sequential_run_app _ _ _ _ _ _ Hpre).
  unfold SequentialAgent.run_async; simpl. by rewrite Hfail.
Qed.

Lemma sequential_failure_propagates_witness :
  SequentialAgent.run_async ([marking_stage] ++ failing_stage :: [marking_stage]) 0%nat one_context
  = (ctx_set 0%nat §"marked" (VBool true) one_context, Raised (StageFailure §"boom")).
Proof.
  eapply (sequential_failure_propagates [marking_stage] [marking_stage] failing_stage
            0%nat 0%nat one_context); reflexivity.
Defined.

(** C4, as stated, fails: the failure escapes the composer, no [errors] list
    is attached and the second stage never marks the context. *)
Lemma sequential_failure_escapes :
  let '(st, o) := SequentialAgent.run_async [failing_stage; marking_stage] 0%nat one_context in
  o = Raised (StageFailure §"boom")
  /\ ctx_of st 0%nat !! §"errors" = None
  /\ ctx_of st 0%nat !! §"marked" = None.
Proof. vm_compute. auto. Qed.

(** ** Parallel composition *)


Lemma dict_lookup_app_fresh k d d' :
  k ∉ map fst d -> dict_lookup k (d ++ d') = dict_lookup k d'.
Proof.
  induction d as [|[k' v'] d IH]; simpl; intros Hk; [done|].
  apply not_elem_of_cons in Hk as [Hne Hk].
  unfold text_eqb. rewrite bool_decide_eq_false_2 by done. by apply IH.
Qed.


Lemma create_tasks_agents sub_agents context st :
  map fst (fst (ParallelAgent.create_tasks sub_agents context st)) = sub_agents.
Proof.
  revert st. induction sub_agents as [|agent rest IH]; intros st; simpl; [done|].
  specialize (IH (snd (ctx_copy context st))).
  destruct (ParallelAgent.create_tasks rest context _) as [tasks st2]; simpl in *.
  by rewrite IH.
Qed.



Lemma create_tasks_copies (sub_agents : list BaseAgent) (context : loc) (st : store)
    (tasks : list (BaseAgent * loc)) (st1 : store) :
  (context < next st)%nat ->
  ParallelAgent.create_tasks sub_agents context st = (tasks, st1) ->
  (forall l, (l < next st)%nat -> heap st1 !! l = heap st !! l)
  /\ Forall (fun t => (next st <= snd t)%nat /\ ctx_of st1 (snd t) = ctx_of st context) tasks
  /\ NoDup (map snd tasks).
Proof.
  revert st tasks st1.
  induction sub_agents as [|agent rest IH]; intros st tasks st1 Hlt Hct; simpl in Hct.
  - inversion Hct; subst. repeat split; [constructor | constructor].
  - destruct (ParallelAgent.create_tasks rest context
                (mkStore (<[next st := ctx_of st context]> (heap st)) (S (next st)) (clock st)))
      as [tasks' st2] eqn:Hrest.
    inversion Hct; subst tasks st1; clear Hct.
    apply IH in Hrest as (Hframe & Hall & Hnd); simpl in *; [|lia].
    assert (Hold : forall l, (l < next st)%nat -> heap st2 !! l = heap st !! l).
    { intros l Hl. rewrite Hframe by lia. apply lookup_insert_ne. lia. }
    assert (Hctx : ctx_of (mkStore (<[next st := ctx_of st context]> (heap st))
                                   (S (next st)) (clock st)) context = ctx_of st context).
    { unfold ctx_of; simpl. rewrite lookup_insert_ne by lia. done. }
    repeat split.
    + exact Hold.
    + constructor; simpl.
      * split; [lia|]. unfold ctx_of at 1. rewrite Hframe by lia.
        by rewrite lookup_insert_eq.
      * eapply Forall_impl; [exact Hall|]. intros [a l] [Hle Heq]; simpl in *.
        split; [lia|]. by rewrite Heq.
    + constructor; [|exact Hnd]. intros Hin.
      apply list_elem_of_fmap in Hin as ([a l] & Heq & Hin); simpl in Heq; subst l.
      rewrite Forall_forall in Hall. apply Hall in Hin as [Hle _]. simpl in Hle. lia.
Qed.

Lemma task_inputs_isolated (tasks : list (BaseAgent * loc)) (st : store)
    (C : gmap text value) :
  Forall (fun t => writes_own_context (fst t)) tasks ->
  NoDup (map snd tasks) ->
  Forall (fun t => ctx_of st (snd t) = C) tasks ->
  task_inputs tasks st = map (fun _ => C) tasks.
Proof.
  revert st. induction tasks as [|[agent l] rest IH]; intros st Hown Hnd Hall; simpl; [done|].
  apply Forall_cons in Hown as [Hagent Hown].
  apply Forall_cons in Hall as [Hl Hall].
  apply NoDup_cons in Hnd as [Hfresh Hnd]. simpl in *.
  rewrite Hl. f_equal. apply IH; [done..|].
  rewrite Forall_forall in Hall |- *. intros [a l'] Hin. simpl.
  rewrite <- (Hall _ Hin). simpl. apply ctx_of_heap. apply Hagent.
  intros ->. apply Hfresh. apply list_elem_of_fmap. by exists (a, l).
Qed.

Lemma await_tasks_frame `{PyRuntime} (tasks : list (BaseAgent * loc))
    (results : list (text * value)) (st : store) (l : loc) :
  Forall (fun t => writes_own_context (fst t)) tasks ->
  l ∉ map snd tasks ->
  heap (snd (ParallelAgent.await_tasks tasks results st)) !! l = heap st !! l.
Proof.
  revert results st. induction tasks as [|[agent l0] rest IH]; intros results st Hown Hl;
    simpl; [done|].
  apply Forall_cons in Hown as [Hagent Hown]. simpl in *.
  apply not_elem_of_cons in Hl as [Hne Hl].
  specialize (Hagent l0 st l Hne).
  destruct (run_async agent l0 st) as [st1 [result|e]]; simpl in *;
    rewrite IH by done; exact Hagent.
Qed.

Lemma dict_set_keys (k : text) (v : value) (d : list (text * value)) (x : text) :
  x ∈ map fst (dict_set k v d) -> x = k \/ x ∈ map fst d.
Proof.
  induction d as [|[k' v'] d IH]; simpl; intros Hx.
  - apply elem_of_cons in Hx as [->|Hx]; [by left | by right].
  - destruct (text_eqb k k'); simpl in Hx; apply elem_of_cons in Hx as [->|Hx].
    + by left.
    + right. apply elem_of_cons. by right.
    + right. apply elem_of_cons. by left.
    + destruct (IH Hx) as [->|Hd]; [by left|]. right. apply elem_of_cons. by right.
Qed.

Lemma await_tasks_keys `{PyRuntime} (tasks : list (BaseAgent * loc))
    (results : list (text * value)) (st : store) (x : text) :
  x ∈ map fst (fst (ParallelAgent.await_tasks tasks results st)) ->
  x ∈ map fst results \/ x ∈ map (fun t => name (fst t)) tasks.
Proof.
  revert results st. induction tasks as [|[agent l0] rest IH]; intros results st; simpl.
  - by left.
  - intros Hx.
    assert (Hstep : forall v st1,
              x ∈ map fst (fst (ParallelAgent.await_tasks rest
                                  (dict_set (name agent) v results) st1)) ->
              x ∈ map fst results
              \/ x ∈ name agent :: map (fun t => name (fst t)) rest).
    { intros v st1 Hin. apply IH in Hin as [Hin|Hin].
      - apply dict_set_keys in Hin as [->|Hin]; [right; apply elem_of_cons; by left | by left].
      - right. apply elem_of_cons. by right. }
    destruct (run_async agent l0 st) as [st1 [result|e]]; simpl in Hx; eapply Hstep, Hx.
Qed.


(** C5, as the code has it: every child receives a shallow copy taken
    before any child runs.  When each child assigns only top-level keys of
    the context it is given, each child starts from exactly the incoming
    bindings, whatever its siblings wrote, and the merge leaves the outer
    context with its incoming bindings plus [parallel_results], whose keys
    are stage names. *)
Theorem parallel_top_level_isolation `{PyRuntime}
    (sub_agents : list BaseAgent) (context : loc) (st : store)
    (tasks : list (BaseAgent * loc)) (st1 : store) :
  (context < next st)%nat ->
  Forall writes_own_context sub_agents ->
  sub_agents <> [] ->
  ParallelAgent.create_tasks sub_agents context st = (tasks, st1) ->
  task_inputs tasks st1 = map (fun _ => ctx_of st context) sub_agents
  /\ exists results,
      ctx_of (fst (ParallelAgent.run_async sub_agents context st)) context
      = <[§"parallel_results" := VDict results]> (ctx_of st context)
      /\ forall key, key ∈ map fst results -> key ∈ map name sub_agents.
Proof.
  intros Hlt Hown Hne Hct.
  pose proof (create_tasks_agents sub_agents context st) as Hagents.
  rewrite Hct in Hagents; simpl in Hagents.
  destruct (create_tasks_copies _ _ _ _ _ Hlt Hct) as (Hframe & Hall & Hnd).
  assert (Hown' : Forall (fun t => writes_own_context (fst t)) tasks).
  { rewrite <- Hagents in Hown. exact (proj1 (List.Forall_map fst writes_own_context tasks) Hown). }
  assert (Hnames : map (fun t => name (fst t)) tasks = map name sub_agents).
  { rewrite <- Hagents. by rewrite map_map. }
  split.
  - rewrite (task_inputs_isolated tasks st1 (ctx_of st context)); [| done | done |].
    + rewrite <- Hagents. by rewrite map_map.
    + eapply Forall_impl; [exact Hall|]. by intros t [_ ?].
  - unfold ParallelAgent.run_async. destruct sub_agents as [|agent rest]; [done|].
    rewrite Hct.
    pose proof (await_tasks_keys tasks [] st1) as Hkeys.
    pose proof (await_tasks_frame tasks [] st1 context Hown') as Hctx.
    destruct (ParallelAgent.await_tasks tasks [] st1) as [results st2]; simpl in *.
    exists results. split.
    + rewrite ctx_of_ctx_set_eq. f_equal. apply ctx_of_heap.
      rewrite Hctx, Hframe; [done | lia |].
      intros Hin. apply list_elem_of_fmap in Hin as (t & -> & Hin).
      rewrite Forall_forall in Hall. apply Hall in Hin as [Hle _]. lia.
    + intros key Hkey. apply Hkeys in Hkey as [Hkey|Hkey].
      * by apply elem_of_nil in Hkey.
      * rewrite <- Hnames. exact Hkey.
Qed.


Lemma marking_stage_own : writes_own_context marking_stage.
Proof.
  intros l st l' Hne. unfold marking_stage, ctx_set; simpl.
  by apply lookup_insert_ne.
Qed.

Lemma parallel_top_level_isolation_witness :
  task_inputs [(marking_stage, 1%nat); (marking_stage, 2%nat)]
    (snd (ParallelAgent.create_tasks [marking_stage; marking_stage] 0%nat one_context))
  = map (fun _ => ctx_of one_context 0%nat) [marking_stage; marking_stage]
  /\ exists results,
      ctx_of (fst (ParallelAgent.run_async (H := ascii_runtime)
                     [marking_stage; marking_stage] 0%nat one_context)) 0%nat
      = <[§"parallel_results" := VDict results]> (ctx_of one_context 0%nat)
      /\ forall key, key ∈ map fst results -> key ∈ map name [marking_stage; marking_stage].
Proof.
  apply (parallel_top_level_isolation (H := ascii_runtime)
           [marking_stage; marking_stage] 0%nat one_context).
  - simpl. lia.
  - repeat constructor; apply marking_stage_own.
  - discriminate.
  - reflexivity.
Defined.

(** C5, as stated, fails: the copies share the objects nested in the
    context.  A child that writes into the dict under [shared] is observed
    by its sibling (which reads [None] when it runs alone), and the object
    under the outer context's own key [shared] is changed by the run. *)
Lemma parallel_shallow_copy_leaks :
  let st := fst (ParallelAgent.run_async (H := ascii_runtime)
                   [nested_writer; nested_reader] 0%nat shared_context) in
  let alone := fst (ParallelAgent.run_async (H := ascii_runtime)
                      [nested_reader] 0%nat shared_context) in
  ctx_of st 0%nat !! §"parallel_results"
  = Some (VDict [(§"Writer", VRef 2%nat); (§"Reader", VRef 3%nat)])
  /\ ctx_get st 3%nat §"seen" VNone = VInt 1
  /\ ctx_get alone 2%nat §"seen" VNone = VNone
  /\ ctx_of shared_context 0%nat !! §"shared" = Some (VRef 1%nat)
  /\ ctx_of shared_context 1%nat !! §"flag" = None
  /\ ctx_of st 1%nat !! §"flag" = Some (VInt 1).
Proof. vm_compute. repeat split; reflexivity. Qed.






(** ** Sentence selection *)

Lemma len_app_one {A} (l : list A) (x : A) : len (l ++ [x]) = len l + 1.
Proof. unfold len. rewrite length_app. simpl. lia. Qed.




(** ** Composition and truncation of the summary *)

Lemma length_lstrip (t : text) : (length (lstrip t) <= length t)%nat.
Proof.
  induction t as [|c r IH]; simpl; [lia|].
  destruct (is_space c); simpl; lia.
Qed.








Lemma table_get_str {A} (table : list (text * A)) (l : text) (d : A) :
  table_get table (VStr l) d = Returned (default d (table_lookup l table)).
Proof. reflexivity. Qed.



(** The bound is on the text before the label.  With one analysed
    sentence of 400 letters the summary the stage publishes has 418
    characters, the 18 of the label included. *)
Example label_follows_the_bound :
  match ctx_get (fst (SummaryGeneratorAgent.run_async (H := ascii_runtime) 0%nat long_context))
                0%nat §"generated_summary" VNone with
  | VStr summary => len summary = 418 /\ max_length + len ELLIPSIS < len summary
  | _ => False
  end.
Proof. vm_compute. split; reflexivity. Qed.

(** ** Scoring *)

(** C8 at the input where the code departs from it: for the query
    [the cat] and an English sentence that holds [cat] but not [the], the
    analysis stage counts the stop word [the] among the query terms and
    scores 37/60, where the composite score over the English stop words is
    13/15. *)
Theorem score_sentence_counts_stop_words :
  (ContentAnalyzerAgent._score_sentence (H := ascii_runtime)
     §"a cat sat on mats" §"the cat" 0 (VStr §"english") == 37 # 60)%Q
  /\ (composite_score (H := ascii_runtime)
        [§"the"; §"a"; §"an"; §"and"; §"or"; §"but"; §"in"; §"on";
         §"at"; §"to"; §"for"; §"of"; §"with"; §"by"]
        §"a cat sat on mats" §"the cat" 0 == 13 # 15)%Q
  /\ (composite_score (H := ascii_runtime) [] §"a cat sat on mats" §"the cat" 0
      == 37 # 60)%Q.
Proof. vm_compute. repeat split; reflexivity. Qed.

(** ** Language fallbacks *)

Lemma filter_none {A} (p : A -> bool) (l : list A) :
  existsb p l = false -> List.filter p l = [].
Proof.
  induction l as [|x r IH]; simpl; [done|].
  destruct (p x); simpl; [discriminate | exact IH].
Qed.

Ltac unknown_key Hl :=
  destruct Hl as (? & ? & ? & ?);
  unfold text_eqb; rewrite !bool_decide_eq_false_2 by done.

(** C9, as the code has it: for a language tag outside the supported set
    nothing raises; the labels and messages fall back to the English
    strings, and the stop-word lookups fall back to the empty set, so that
    theme extraction and sentence scoring filter no stop word at all. *)
Theorem unknown_language_fallbacks `{PyRuntime}
    (language sentence query summary : text) (position : Q) :
  unsupported language ->
  ContentAnalyzerAgent._extract_themes sentence (VStr language)
  = Returned (firstn 3 (List.filter (fun w => 3 <? len w) (runs is_word (lower sentence))))
  /\ AISearchSummarizer._score_sentence sentence query position (VStr language)
     = Returned (AISearchSummarizer.score_with [] sentence query position)
  /\ SummaryGeneratorAgent._format_summary_for_language summary (VStr language)
     = Returned (§"📝 **AI Summary**: " ++ summary)
  /\ AISearchSummarizer._format_summary_for_language summary (VStr language)
     = Returned (§"📝 **AI Summary**: " ++ summary)
  /\ SummaryGeneratorAgent._get_no_content_message (VStr language)
     = Returned §"Insufficient content available."
  /\ AISearchSummarizer._get_default_message (VStr language) §"no_content"
     = Returned §"📝 **AI Summary**: Insufficient content available."
  /\ table_get CriticAgent.clarifications (VStr language) §" (based on limited information)"
     = Returned §" (based on limited information)"
  /\ table_get AgenticSummarizer.error_messages (VStr language)
       §"📝 **AI Summary**: Unable to generate summary due to technical issues."
     = Returned §"📝 **AI Summary**: Unable to generate summary due to technical issues.".
Proof.
  intros Hl. repeat split.
  - unfold ContentAnalyzerAgent._extract_themes.
    destruct (existsb _ _) eqn:Hlong.
    + rewrite table_get_str. unfold ContentAnalyzerAgent.stop_words, table_lookup.
      unknown_key Hl. simpl. do 2 f_equal. apply List.filter_ext. intros w.
      apply andb_true_r.
    + by rewrite (filter_none _ _ Hlong).
  - unfold AISearchSummarizer._score_sentence. rewrite table_get_str.
    unfold AISearchSummarizer.stop_words, table_lookup. by unknown_key Hl.
  - unfold SummaryGeneratorAgent._format_summary_for_language. rewrite table_get_str.
    unfold SummaryGeneratorAgent.prefixes, table_lookup. by unknown_key Hl.
  - unfold AISearchSummarizer._format_summary_for_language. rewrite table_get_str.
    unfold AISearchSummarizer.intros, table_lookup. by unknown_key Hl.
  - unfold SummaryGeneratorAgent._get_no_content_message. rewrite table_get_str.
    unfold SummaryGeneratorAgent.no_content_messages, table_lookup. by unknown_key Hl.
  - assert (Hnone : table_lookup language AISearchSummarizer.messages = None).
    { unfold AISearchSummarizer.messages, table_lookup. by unknown_key Hl. }
    unfold AISearchSummarizer._get_default_message. rewrite table_get_str, Hnone.
    reflexivity.
  - rewrite table_get_str. unfold CriticAgent.clarifications, table_lookup.
    by unknown_key Hl.
  - rewrite table_get_str. unfold AgenticSummarizer.error_messages, table_lookup.
    by unknown_key Hl.
Qed.

(** C9, as stated, fails for the stop words: under an unknown tag the
    English stop word [with] is kept as a theme and [the] is counted as a
    query term, where the English table removes both. *)
Lemma unknown_language_keeps_stop_words :
  ContentAnalyzerAgent._extract_themes (H := ascii_runtime)
    §"with clean water" (VStr §"klingon") = Returned [§"with"; §"clean"; §"water"]
  /\ ContentAnalyzerAgent._extract_themes (H := ascii_runtime)
       §"with clean water" (VStr §"english") = Returned [§"clean"; §"water"]
  /\ AISearchSummarizer._score_sentence (H := ascii_runtime)
       §"a cat sat on mats" §"the cat" 0 (VStr §"klingon")
     = Returned (AISearchSummarizer.score_with (H := ascii_runtime) []
                   §"a cat sat on mats" §"the cat" 0)
  /\ AISearchSummarizer._score_sentence (H := ascii_runtime)
       §"a cat sat on mats" §"the cat" 0 (VStr §"english")
     = Returned (AISearchSummarizer.score_with (H := ascii_runtime) [§"the"]
                   §"a cat sat on mats" §"the cat" 0)
  /\ ~ (AISearchSummarizer.score_with (H := ascii_runtime) []
          §"a cat sat on mats" §"the cat" 0
        == AISearchSummarizer.score_with (H := ascii_runtime) [§"the"]
             §"a cat sat on mats" §"the cat" 0)%Q.
Proof. vm_compute. repeat split; try reflexivity. discriminate. Qed.

(** ** Frames of the stages *)

Lemma heap_ctx_set_ne l k v st l' :
  l' <> l -> heap (ctx_set l k v st) !! l' = heap st !! l'.
Proof. intros Hne. unfold ctx_set; simpl. by apply lookup_insert_ne. Qed.

Lemma lookup_ctx_set_ne l k v st k' :
  k' <> k -> ctx_of (ctx_set l k v st) l !! k' = ctx_of st l !! k'.
Proof. intros Hne. rewrite ctx_of_ctx_set_eq. by apply lookup_insert_ne. Qed.

Lemma heap_tick st : heap (tick st) = heap st.
Proof. reflexivity. Qed.

Lemma next_tick st : next (tick st) = next st.
Proof. reflexivity. Qed.

Lemma next_ctx_set l k v st : next (ctx_set l k v st) = next st.
Proof. reflexivity. Qed.

Lemma ctx_of_tick st l : ctx_of (tick st) l = ctx_of st l.
Proof. reflexivity. Qed.

Ltac leaf_finish :=
  unfold now; cbn [fst snd];
  (split; [by rewrite ?next_ctx_set, ?next_tick|]);
  (split; [intros l' Hne;
           repeat first [rewrite heap_ctx_set_ne by done | rewrite heap_tick];
           reflexivity|]);
  (split; [|by eauto]);
  intros k Hk; try reflexivity;
  repeat first [rewrite lookup_ctx_set_ne | rewrite ctx_of_tick]; try reflexivity;
  intros ->; apply Hk; repeat constructor.

Ltac leaf_stage_tac :=
  intros l st; cbn [run_async];
  match goal with
  | |- context [match ?c with Returned _ => _ | Raised _ => _ end] =>
    destruct c as [[[? ?] ?]|?] || destruct c as [[? ?]|?] || destruct c as [?|?]
  end; leaf_finish.


Lemma leaf_content_analyzer `{PyRuntime} :
  leaf_stage [§"analyzed_sentences"; §"themes"; §"entities"; §"analysis_timestamp"]
             ContentAnalyzerAgent.agent.
Proof. unfold ContentAnalyzerAgent.agent, ContentAnalyzerAgent.run_async. leaf_stage_tac. Qed.

Lemma leaf_insight_extractor `{PyRuntime} :
  leaf_stage [§"key_insights"; §"insight_timestamp"] InsightExtractorAgent.agent.
Proof. unfold InsightExtractorAgent.agent, InsightExtractorAgent.run_async. leaf_stage_tac. Qed.


Lemma leaf_critic `{PyRuntime} :
  leaf_stage [§"final_summary"; §"quality_score"; §"critic_suggestions";
              §"critique_timestamp"] CriticAgent.agent.
Proof. unfold CriticAgent.agent, CriticAgent.run_async. leaf_stage_tac. Qed.







Ltac key_fact := apply (bool_decide_unpack _); vm_compute; exact I.





(** ** The entry point *)

Lemma pipeline_no_results `{PyRuntime}
    (query language : text) (max_results : Z) (st : store) :
  exists r,
    AgenticSummarizer.summarize_search_results [] query language max_results st
    = (tick st, Returned r)
    /\ summarization_method r = §"no_results_fallback"
    /\ confidence_score r = VFloat 0
    /\ source_count r = 0
    /\ key_insights r = VList [] /\ sources r = []
    /\ execution_details r = None /\ error r = None
    /\ heap (tick st) = heap st /\ next (tick st) = next st
    /\ exists r',
        AISearchSummarizer._generate_no_results_summary query language st
        = (tick st, Returned r')
        /\ summarization_method r' = §"fallback"
        /\ confidence_score r' = VFloat 0
        /\ source_count r' = 0.
Proof.
  eexists. split; [reflexivity|]. repeat split.
  eexists. split; [reflexivity|]. repeat split.
Qed.

(** C1: with no search results the orchestrator returns the no-results
    record, [approach_used = no_results], confidence 0.0 and source count
    0, for every query and language, every configuration and every force
    flag; it invokes neither path (the list of invoked paths is empty and
    the store is the one it was given), whatever the two paths are.  The
    two paths have the same law of their own: on an empty list the entry
    point of the pipeline returns its no-results record directly, without
    building a context or running a stage (the heap is untouched, only the
    clock is read for the timestamp), and the record of the heuristic
    summarizer has the same confidence and count. *)
Theorem no_results_short_circuit `{PyRuntime}
    (heuristic_path pipeline_path :
       list value -> text -> text -> store -> store * outcome SummaryResult)
    (no_results_text error_text : text -> text) (content_length : list value -> Z)
    (cfg : HybridOrchestrator.Configuration) (opts : HybridOrchestrator.Options)
    (query language : text) (max_results : Z) (st : store) :
  (exists result,
      HybridOrchestrator.summarize heuristic_path pipeline_path no_results_text
        error_text content_length cfg opts [] query language st
      = ([], st, result)
      /\ HybridOrchestrator.approach_used result = HybridOrchestrator.no_results
      /\ HybridOrchestrator.confidence result = VFloat 0
      /\ HybridOrchestrator.n_source_count result = 0)
  /\ exists r,
      AgenticSummarizer.summarize_search_results [] query language max_results st
      = (tick st, Returned r)
      /\ summarization_method r = §"no_results_fallback"
      /\ confidence_score r = VFloat 0
      /\ source_count r = 0
      /\ key_insights r = VList [] /\ sources r = []
      /\ execution_details r = None /\ error r = None
      /\ heap (tick st) = heap st /\ next (tick st) = next st
      /\ exists r',
          AISearchSummarizer._generate_no_results_summary query language st
          = (tick st, Returned r')
          /\ summarization_method r' = §"fallback"
          /\ confidence_score r' = VFloat 0
          /\ source_count r' = 0.
Proof.
  split; [|apply pipeline_no_results].
  eexists. split; [reflexivity|]. repeat split.
Qed.




Lemma initial_language (search_results : list value) (query language : text)
    (max_results : Z) (stamp : value) :
  AgenticSummarizer.initial_context search_results query language max_results stamp
    !! §"language" = Some (VStr language).
Proof.
  unfold AgenticSummarizer.initial_context.
  rewrite !lookup_insert_ne by (intros Heq; vm_compute in Heq; discriminate).
  apply lookup_insert_eq.
Qed.


Lemma table_lookup_four {A} (l : text) (a b c d : A) (k1 k2 k3 k4 : text) :
  table_lookup l [(k1, a); (k2, b); (k3, c); (k4, d)]
  = if text_eqb l k1 then Some a
    else if text_eqb l k2 then Some b
    else if text_eqb l k3 then Some c
    else if text_eqb l k4 then Some d else None.
Proof. reflexivity. Qed.





(** ** The insights of a pipeline run *)






Lemma data_fetcher_run `{PyRuntime} (context : loc) (st : store)
    (records : list value) (query : text) :
  ctx_of st context !! §"search_results" = Some (VList records) ->
  ctx_of st context !! §"query" = Some (VStr query) ->
  run_async DataFetcherAgent.agent context st
  = match mapM (DataFetcherAgent.process_result st (VStr query)) (enumerate_from 0 records) with
    | Raised e => (st, Raised e)
    | Returned processed =>
      let st1 := ctx_set context §"processed_results" (VList processed) st in
      (ctx_set context §"fetch_timestamp" (VStr (isoformat (clock st1))) (tick st1),
       Returned context)
    end.
Proof.
  intros Hrec Hq. unfold DataFetcherAgent.agent. cbn [run_async].
  unfold DataFetcherAgent.run_async, ctx_get. rewrite Hrec, Hq. simpl.
  by destruct (mapM _ _).
Qed.



Lemma error_result_method `{PyRuntime} (context : loc) (err : text) (st st' : store)
    (r : SummaryResult) :
  AgenticSummarizer._generate_error_result context err st = (st', Returned r) ->
  summarization_method r = §"error_fallback".
Proof.
  unfold AgenticSummarizer._generate_error_result.
  destruct (table_get _ _ _); [|discriminate]. unfold now.
  intros Heq. by inversion Heq.
Qed.

Lemma initial_lookups (search_results : list value) (query language : text)
    (max_results : Z) (stamp : value) :
  let C0 := AgenticSummarizer.initial_context search_results query language
              max_results stamp in
  C0 !! §"search_results" = Some (VList (slice_to max_results search_results))
  /\ C0 !! §"query" = Some (VStr query)
  /\ C0 !! §"themes" = None /\ C0 !! §"entities" = None
  /\ C0 !! §"processed_results" = None.
Proof.
  unfold AgenticSummarizer.initial_context. repeat split;
    repeat first [ apply lookup_insert_eq
                 | apply lookup_empty
                 | rewrite lookup_insert_ne by (intros Heq; vm_compute in Heq; discriminate) ].
Qed.

Lemma methods_differ :
  §"error_fallback" <> §"multi_agent_agentic"
  /\ §"no_results_fallback" <> §"multi_agent_agentic".
Proof. split; intros Heq; vm_compute in Heq; discriminate. Qed.



Ltac error_contradiction Hrun Hmethod Herr :=
  apply error_result_method in Hrun; rewrite Hrun in Hmethod; by destruct (Herr Hmethod).











(** ** The theorems at concrete inputs *)


Lemma unknown_language_fallbacks_witness :
  unsupported §"klingon"
  /\ SummaryGeneratorAgent._format_summary_for_language §"text" (VStr §"klingon")
     = Returned (§"📝 **AI Summary**: " ++ §"text").
Proof.
  assert (Hl : unsupported §"klingon").
  { repeat split; intros Heq; vm_compute in Heq; discriminate. }
  split; [exact Hl|].
  exact (proj1 (proj2 (proj2 (unknown_language_fallbacks (H := ascii_runtime)
                                §"klingon" §"a b" §"a" §"text" 0 Hl)))).
Defined.



(** The diversity policy at work: the third candidate repeats a used source
    with covered themes and a score below 0.7 and is passed over; the fourth
    brings a new source and is taken. *)
Example diversity_policy_sample :
  map s_text (DiversityPolicy.select (H := ascii_runtime) sample_sentences)
  = [§"Arctic ice sheets are melting quickly";
     §"Arctic glaciers are melting quickly too";
     §"Solar panels are getting cheaper"].
Proof. vm_compute. reflexivity. Qed.

(** * Further properties of the agents and of the heuristic summarizer *)

(** ** Lists *)

Lemma mapM_Forall {A B} (f : A -> outcome B) (P : B -> Prop) (xs : list A) (ys : list B) :
  (forall x y, f x = Returned y -> P y) ->
  mapM f xs = Returned ys -> Forall P ys.
Proof.
  intros Hf. revert ys. induction xs as [|x r IH]; intros ys; simpl.
  - intros Heq. inversion Heq. constructor.
  - destruct (f x) as [y|?] eqn:Hy; cbn [obind]; [|discriminate].
    destruct (mapM f r) as [ys'|?]; cbn [obind]; [|discriminate].
    intros Heq. inversion Heq; subst. constructor; [by eapply Hf | by apply IH].
Qed.

Lemma mapM_length {A B} (f : A -> outcome B) (xs : list A) (ys : list B) :
  mapM f xs = Returned ys -> length ys = length xs.
Proof.
  revert ys. induction xs as [|x r IH]; intros ys; simpl.
  - intros Heq. by inversion Heq.
  - destruct (f x) as [y|?]; cbn [obind]; [|discriminate].
    destruct (mapM f r) as [ys'|?]; cbn [obind]; [|discriminate].
    intros Heq. inversion Heq; subst. simpl. f_equal. by apply IH.
Qed.

Lemma Forall_omap_id {A} (P : A -> Prop) (l : list (option A)) :
  Forall (fun o => forall x, o = Some x -> P x) l -> Forall P (omap id l).
Proof.
  induction 1 as [|[x|] r Hx _ IH]; simpl; [constructor | | exact IH].
  constructor; [by apply Hx | exact IH].
Qed.

Lemma enumerate_from_length {A} (i : Z) (xs : list A) :
  length (enumerate_from i xs) = length xs.
Proof.
  revert i. induction xs as [|x r IH]; intros i; simpl; [done|]. by rewrite IH.
Qed.

(** ** The agent hierarchy *)

Lemma AgentTree_subs_ind (P : AgentTree -> Prop) :
  (forall n subs, Forall P subs -> P (AgentNode n subs)) -> forall a, P a.
Proof.
  intros Hnode. fix IH 1. intros [n subs]. apply Hnode.
  induction subs as [|s rest IHrest]; constructor; [apply IH | exact IHrest].
Qed.

Lemma find_agent_node (m : text) (subs : list AgentTree) (n : text) :
  find_agent (AgentNode m subs) n
  = if text_eqb m n then Some (AgentNode m subs) else find_in subs n.
Proof.
  simpl. destruct (text_eqb m n); [done|].
  induction subs as [|s rest IH]; simpl; [done|]. by rewrite IH.
Qed.

Lemma agent_names_node (m : text) (subs : list AgentTree) :
  agent_names (AgentNode m subs) = m :: names_in subs.
Proof.
  simpl. f_equal. unfold names_in.
  induction subs as [|s rest IH]; simpl; [done|]. by rewrite IH.
Qed.

Lemma agents_of_node (m : text) (subs : list AgentTree) :
  agents_of (AgentNode m subs) = AgentNode m subs :: agents_in subs.
Proof.
  simpl. f_equal. unfold agents_in.
  induction subs as [|s rest IH]; simpl; [done|]. by rewrite IH.
Qed.

Lemma text_eqb_eq (a b : text) : text_eqb a b = true <-> a = b.
Proof. unfold text_eqb. apply bool_decide_eq_true. Qed.

Lemma text_eqb_neq (a b : text) : text_eqb a b = false <-> a <> b.
Proof. unfold text_eqb. apply bool_decide_eq_false. Qed.

Lemma find_over_app {A} (p : A -> bool) (l1 l2 : list A) :
  List.find p (l1 ++ l2)
  = match List.find p l1 with Some x => Some x | None => List.find p l2 end.
Proof.
  induction l1 as [|x r IH]; simpl; [done|]. by destruct (p x).
Qed.

(** [find_agent] is the first agent in visiting order with the name. *)
Lemma find_agent_first (self : AgentTree) (n : text) :
  find_agent self n = List.find (fun a => text_eqb (node_name a) n) (agents_of self).
Proof.
  induction self as [m subs IH] using AgentTree_subs_ind.
  rewrite find_agent_node, agents_of_node. cbn [List.find node_name].
  destruct (text_eqb m n); [done|].
  unfold agents_in. induction IH as [|s rest Hs _ IH]; simpl; [done|].
  rewrite find_over_app, <- Hs, IH. reflexivity.
Qed.

Lemma agent_names_agents (self : AgentTree) :
  agent_names self = map node_name (agents_of self).
Proof.
  induction self as [m subs IH] using AgentTree_subs_ind.
  rewrite agent_names_node, agents_of_node. cbn [map node_name]. f_equal.
  unfold names_in, agents_in. induction IH as [|s rest Hs _ IH]; simpl; [done|].
  by rewrite map_app, Hs, IH.
Qed.

Lemma find_agent_none (self : AgentTree) (n : text) :
  find_agent self n = None <-> n ∉ agent_names self.
Proof.
  rewrite find_agent_first, agent_names_agents. split.
  - intros Hnone Hin. apply list_elem_of_fmap in Hin as (a & -> & Ha).
    apply list_elem_of_In in Ha.
    pose proof (List.find_none _ _ Hnone a Ha) as Hfalse. simpl in Hfalse.
    apply text_eqb_neq in Hfalse. done.
  - intros Hnot. destruct (List.find _ _) as [a|] eqn:Hfind; [|done].
    apply List.find_some in Hfind as [Ha Hname]. apply text_eqb_eq in Hname.
    destruct Hnot. apply list_elem_of_fmap. exists a. split; [done|].
    by apply list_elem_of_In.
Qed.

(** X1: [find_agent] answers with the first agent of the hierarchy, in the
    order it visits them (an agent before the agents below it, sub-agents
    in registration order), that carries the requested name: the answer is
    an agent of the hierarchy with that name, and it is [None] exactly when
    no agent of the hierarchy has that name. *)
Theorem find_agent_sound_complete (self : AgentTree) (n : text) :
  find_agent self n = List.find (fun a => text_eqb (node_name a) n) (agents_of self)
  /\ (forall found, find_agent self n = Some found ->
                    found ∈ agents_of self /\ node_name found = n)
  /\ (find_agent self n = None <-> n ∉ agent_names self).
Proof.
  split; [apply find_agent_first|]. split; [|apply find_agent_none].
  intros found Hfound. rewrite find_agent_first in Hfound.
  apply List.find_some in Hfound as [Hin Hname].
  split; [by apply list_elem_of_In | by apply text_eqb_eq].
Qed.

Lemma find_in_app_fresh (agents : list AgentTree) (child : AgentTree) (n : text) :
  n ∉ names_in agents -> find_in (agents ++ [child]) n = find_agent child n.
Proof.
  unfold names_in. induction agents as [|s rest IH]; simpl; intros Hn.
  - by destruct (find_agent child n).
  - apply not_elem_of_app in Hn as [Hs Hrest].
    apply (proj2 (find_agent_none s n)) in Hs. rewrite Hs. by apply IH.
Qed.

Lemma find_in_app_hit (agents : list AgentTree) (child : AgentTree) (n : text) :
  n ∈ names_in agents -> find_in (agents ++ [child]) n = find_in agents n.
Proof.
  unfold names_in. induction agents as [|s rest IH]; simpl; intros Hn.
  - by apply elem_of_nil in Hn.
  - destruct (find_agent s n) as [f|] eqn:Hf; [done|].
    apply elem_of_app in Hn as [Hs|Hrest]; [|by apply IH].
    apply (proj1 (find_agent_none s n)) in Hf. by destruct (Hf Hs).
Qed.

(** X2: registering a sub-agent and looking a name up.  A name the
    hierarchy does not use yet is looked up in the new child alone; a name
    already used below the parent keeps its answer, so an older agent
    shadows a newcomer of the same name; the parent's own name answers
    with the parent, which now holds the child. *)
Theorem find_agent_after_add (self child : AgentTree) (n : text) :
  (n ∉ agent_names self ->
   find_agent (add_sub_agent self child) n = find_agent child n)
  /\ (n <> node_name self -> n ∈ names_in (node_subs self) ->
      find_agent (add_sub_agent self child) n = find_agent self n)
  /\ find_agent (add_sub_agent self child) (node_name self)
     = Some (add_sub_agent self child).
Proof.
  destruct self as [m subs]. unfold add_sub_agent. simpl node_name. simpl node_subs.
  rewrite !find_agent_node, agent_names_node. split; [|split].
  - intros Hn. apply not_elem_of_cons in Hn as [Hm Hsubs].
    assert (Hneq : text_eqb m n = false) by (apply text_eqb_neq; congruence).
    by rewrite Hneq, find_in_app_fresh.
  - intros Hm Hn.
    assert (Hneq : text_eqb m n = false) by (apply text_eqb_neq; congruence).
    rewrite Hneq. by apply find_in_app_hit.
  - by rewrite (proj2 (text_eqb_eq m m) eq_refl).
Qed.

Lemma find_agent_after_add_witness :
  ~ In §"Auditor" (agent_names workflow_tree)
  /\ find_agent (add_sub_agent workflow_tree
                   (AgentNode §"Audit" [AgentNode §"Auditor" []])) §"Auditor"
     = Some (AgentNode §"Auditor" []).
Proof.
  assert (Hn : ~ In §"Auditor" (agent_names workflow_tree))
    by (rewrite <- list_elem_of_In; apply (bool_decide_unpack _); vm_compute; exact I).
  split; [exact Hn|]. rewrite <- list_elem_of_In in Hn.
  rewrite (proj1 (find_agent_after_add workflow_tree
                    (AgentNode §"Audit" [AgentNode §"Auditor" []]) §"Auditor") Hn).
  vm_compute. reflexivity.
Defined.

(** ** Normal forms of cleaned text *)

Lemma lstrip_head (t : text) c r : lstrip t = c :: r -> is_space c = false.
Proof.
  induction t as [|a t IH]; simpl; [discriminate|].
  destruct (is_space a) eqn:Ha; [exact IH|]. intros Heq. by inversion Heq; subst.
Qed.

Lemma lstrip_fixed (t : text) :
  (forall c r, t = c :: r -> is_space c = false) -> lstrip t = t.
Proof.
  destruct t as [|a t]; [done|]. intros Hhead. simpl.
  by rewrite (Hhead a t eq_refl).
Qed.

Lemma lstrip_suffix (t : text) : exists p, t = p ++ lstrip t.
Proof.
  induction t as [|a t [p Hp]]; simpl; [by exists []|].
  destruct (is_space a); [|by exists []]. exists (a :: p). simpl. by rewrite <- Hp.
Qed.

Lemma rev_head_of_suffix (p s : text) c r :
  rev s = c :: r -> exists r', rev (p ++ s) = c :: r'.
Proof. intros Hs. rewrite rev_app_distr, Hs. simpl. by eexists. Qed.

Lemma strip_ends (t : text) : blank_free_ends (strip t).
Proof.
  unfold strip. set (u := lstrip t). set (v := lstrip (rev u)). split.
  - intros c r Heq.
    destruct (lstrip_suffix (rev u)) as [p Hp]. fold v in Hp.
    assert (Hu : u = rev v ++ rev p).
    { rewrite <- (rev_involutive u), Hp, rev_app_distr. done. }
    rewrite Heq in Hu. eapply (lstrip_head t c). fold u. rewrite Hu. reflexivity.
  - intros c r Heq. rewrite rev_involutive in Heq. by apply (lstrip_head (rev u) c r).
Qed.

Lemma strip_fixed (t : text) : blank_free_ends t -> strip t = t.
Proof.
  intros [Hhead Hlast]. unfold strip.
  rewrite (lstrip_fixed t Hhead), (lstrip_fixed (rev t) Hlast). apply rev_involutive.
Qed.

Lemma strip_idempotent (t : text) : strip (strip t) = strip t.
Proof. apply strip_fixed, strip_ends. Qed.

Lemma Forall_lstrip (P : N -> Prop) (t : text) : Forall P t -> Forall P (lstrip t).
Proof.
  induction 1 as [|a t Ha Ht IH]; simpl; [constructor|].
  destruct (is_space a); [exact IH | by constructor].
Qed.

Lemma Forall_strip (P : N -> Prop) (t : text) : Forall P t -> Forall P (strip t).
Proof.
  intros Ht. unfold strip. apply Forall_rev, Forall_lstrip, Forall_rev, Forall_lstrip, Ht.
Qed.

Lemma collapse_ws_plain (b : bool) (t : text) : only_plain_blanks (collapse_ws_aux b t).
Proof.
  revert b. induction t as [|c t IH]; intros b; simpl; [constructor|].
  destruct (is_space c) eqn:Hc.
  - destruct b; [apply IH|]. constructor; [done | apply IH].
  - constructor; [congruence | apply IH].
Qed.

Lemma strip_urls_keeps (P : N -> Prop) (b : bool) (t : text) :
  Forall P t -> Forall P (strip_urls_aux b t).
Proof.
  intros Ht. revert b. induction Ht as [|c t Hc Ht IH]; intros b; [constructor|].
  cbn [strip_urls_aux]. destruct (is_space c); [by constructor|].
  destruct b; [apply IH|]. destruct (url_at (c :: t)); [apply IH | by constructor].
Qed.

Lemma length_strip (t : text) : (length (strip t) <= length t)%nat.
Proof.
  unfold strip. rewrite length_rev.
  etrans; [apply length_lstrip|]. rewrite length_rev. apply length_lstrip.
Qed.

Lemma length_collapse_ws (b : bool) (t : text) :
  (length (collapse_ws_aux b t) <= length t)%nat.
Proof.
  revert b. induction t as [|c t IH]; intros b; simpl; [lia|].
  pose proof (IH true). pose proof (IH false).
  destruct (is_space c); [destruct b|]; simpl; lia.
Qed.

Lemma length_strip_urls (b : bool) (t : text) :
  (length (strip_urls_aux b t) <= length t)%nat.
Proof.
  revert b. induction t as [|c t IH]; intros b; [simpl; lia|].
  cbn [strip_urls_aux]. pose proof (IH true). pose proof (IH false).
  destruct (is_space c); [simpl; lia|].
  destruct b; [simpl; lia|]. destruct (url_at (c :: t)); simpl; lia.
Qed.

(** X3: the cleaned title or snippet of a result is in normal form: it
    neither starts nor ends with a blank, every blank left inside it is a
    plain space (tabs, line breaks and the other Unicode blanks are gone),
    and it is no longer than the raw text. *)
Theorem clean_text_normal_form (st : store) (t : text) :
  exists cleaned,
    DataFetcherAgent._clean_text st (VStr t) = Returned cleaned
    /\ strip cleaned = cleaned
    /\ only_plain_blanks cleaned
    /\ len cleaned <= len t.
Proof.
  destruct t as [|c t].
  - exists []. repeat split; [constructor | done].
  - eexists. split; [reflexivity|]. split; [apply strip_idempotent|]. split.
    + apply Forall_strip, strip_urls_keeps, collapse_ws_plain.
    + unfold len. apply inj_le.
      etrans; [apply length_strip|]. etrans; [apply length_strip_urls|].
      apply length_collapse_ws.
Qed.

Lemma split_on_pieces (sep : N -> bool) (cur t : text) :
  Forall (fun c => sep c = false) cur ->
  Forall (Forall (fun c => sep c = false)) (split_on_aux sep cur t).
Proof.
  revert cur. induction t as [|c t IH]; intros cur Hcur; simpl.
  - constructor; [by apply Forall_rev | constructor].
  - destruct (sep c) eqn:Hc.
    + constructor; [by apply Forall_rev | apply IH; constructor].
    + apply IH. by constructor.
Qed.

Lemma split_sentences_shape (t : text) :
  Forall (fun s => s <> [] /\ strip s = s
                   /\ Forall (fun c => is_sentence_end c = false) s)
         (split_sentences t).
Proof.
  unfold split_sentences, split_on.
  pose proof (split_on_pieces is_sentence_end [] t (Forall_nil_2 _)) as Hpieces.
  induction Hpieces as [|p ps Hp _ IH]; simpl; [constructor|].
  destruct (strip p) as [|c r] eqn:Hs; [exact IH|].
  constructor; [|exact IH]. split; [done|]. split.
  - rewrite <- Hs. apply strip_idempotent.
  - rewrite <- Hs. by apply Forall_strip.
Qed.

(** X4: the sentences the analysis extracts from a text are never empty,
    carry no blank at either end, and contain none of the sentence
    terminators [.!?।॥] they were split on. *)
Theorem extract_sentences_shape (t : text) :
  Forall (fun s => s <> [] /\ strip s = s
                   /\ Forall (fun c => is_sentence_end c = false) s)
         (ContentAnalyzerAgent._extract_sentences t).
Proof. unfold ContentAnalyzerAgent._extract_sentences. apply split_sentences_shape. Qed.

(** ** Bounds on the scores *)

Lemma py_min_le_r (a b : Q) : (py_min a b <= b)%Q.
Proof.
  unfold py_min. destruct (Qle_bool a b) eqn:Hab; [by apply Qle_bool_iff | apply Qle_refl].
Qed.

Lemma py_min_nonneg (a b : Q) : (0 <= a)%Q -> (0 <= b)%Q -> (0 <= py_min a b)%Q.
Proof. intros Ha Hb. unfold py_min. by destruct (Qle_bool a b). Qed.

Lemma py_max_nonneg (b : Q) : (0 <= py_max 0 b)%Q.
Proof.
  unfold py_max. destruct (Qle_bool b 0) eqn:Hb; [apply Qle_refl|].
  apply Qnot_lt_le. intros Hlt. apply Qlt_le_weak in Hlt.
  apply Qle_bool_iff in Hlt. congruence.
Qed.

Lemma ratio_nonneg (n m : Z) : 0 <= n -> 0 <= m -> (0 <= inject_Z n / inject_Z m)%Q.
Proof.
  intros Hn Hm. unfold Qdiv. apply Qmult_le_0_compat.
  - change 0%Q with (inject_Z 0). by rewrite <- Zle_Qle.
  - apply Qinv_le_0_compat. change 0%Q with (inject_Z 0). by rewrite <- Zle_Qle.
Qed.

Lemma len_nonneg {A} (l : list A) : 0 <= len l.
Proof. unfold len. lia. Qed.

Lemma scaled_nonneg (a w : Q) : (0 <= a)%Q -> (0 <= w)%Q -> (0 <= a * w)%Q.
Proof. apply Qmult_le_0_compat. Qed.

Lemma sum_nonneg (a b : Q) : (0 <= a)%Q -> (0 <= b)%Q -> (0 <= a + b)%Q.
Proof. intros Ha Hb. rewrite <- (Qplus_0_l 0). by apply Qplus_le_compat. Qed.

(** X5: the score the analysis gives a sentence lies between 0 and 1,
    whatever the sentence, the query and the rank of the result are. *)
Theorem score_sentence_in_unit_interval `{PyRuntime}
    (sentence query : text) (position : Q) (language : value) :
  (0 <= ContentAnalyzerAgent._score_sentence sentence query position language)%Q
  /\ (ContentAnalyzerAgent._score_sentence sentence query position language <= 1)%Q.
Proof.
  unfold ContentAnalyzerAgent._score_sentence.
  set (base := (0 + py_max 0 ((5 - position) / 5) * (3 # 10)
                + py_min (inject_Z (len (split_ws sentence)) / 15) 1 * (2 # 10))%Q).
  assert (Hbase : (0 <= base)%Q).
  { unfold base. apply sum_nonneg; [apply sum_nonneg; [apply Qle_refl|]|].
    - apply scaled_nonneg; [apply py_max_nonneg | done].
    - apply scaled_nonneg; [|done]. apply py_min_nonneg; [|done].
      apply (ratio_nonneg _ 15); [apply len_nonneg | lia]. }
  split; [|apply py_min_le_r].
  apply py_min_nonneg; [|done].
  destruct (text_set (split_ws (lower query))) as [|w ws]; [exact Hbase|].
  apply sum_nonneg; [exact Hbase|]. apply scaled_nonneg; [|done].
  apply ratio_nonneg; apply len_nonneg.
Qed.

(** X6: the initial relevance of a result lies between 0 and 1, and it is
    0.5 when the query has no terms. *)
Theorem initial_relevance_bounds `{PyRuntime} (st : store) (result query : value)
    (relevance : Q) :
  DataFetcherAgent._calculate_initial_relevance st result query = Returned relevance ->
  (0 <= relevance)%Q /\ (relevance <= 1)%Q
  /\ (forall q, query = VStr q -> split_ws (lower q) = [] -> relevance = (1 # 2)%Q).
Proof.
  unfold DataFetcherAgent._calculate_initial_relevance. intros Hrel.
  destruct (dict_get st result §"title" (VStr [])) as [title0|?];
    cbn [obind] in Hrel; [|discriminate].
  destruct (py_lower title0) as [title|?]; cbn [obind] in Hrel; [|discriminate].
  destruct (dict_get st result §"snippet" (VStr [])) as [snippet0|?];
    cbn [obind] in Hrel; [|discriminate].
  destruct (py_lower snippet0) as [snippet|?]; cbn [obind] in Hrel; [|discriminate].
  destruct (py_lower query) as [lowered|?] eqn:Hq; cbn [obind] in Hrel; [|discriminate].
  cbv zeta in Hrel.
  destruct (len (text_set (split_ws lowered)) =? 0) eqn:Hlen.
  - inversion Hrel; subst. repeat split; try done.
  - inversion Hrel; subst. split; [|split; [apply py_min_le_r|]].
    + apply py_min_nonneg; [|done]. apply ratio_nonneg.
      * pose proof (len_nonneg (List.filter (fun word => is_substring word title)
                                  (text_set (split_ws lowered)))).
        pose proof (len_nonneg (List.filter (fun word => is_substring word snippet)
                                  (text_set (split_ws lowered)))). lia.
      * pose proof (len_nonneg (text_set (split_ws lowered))). lia.
    + intros q -> Hempty. simpl in Hq. inversion Hq; subst lowered.
      rewrite Hempty in Hlen. discriminate.
Qed.

Lemma initial_relevance_bounds_witness :
  DataFetcherAgent._calculate_initial_relevance (H := ascii_runtime) empty_store
    (sample_record §"Arctic ice" §"The ice is melting." §"a.org") (VStr §"arctic ice")
  = Returned (5 # 6)%Q
  /\ (0 <= 5 # 6)%Q /\ (5 # 6 <= 1)%Q.
Proof.
  assert (Hrun : DataFetcherAgent._calculate_initial_relevance (H := ascii_runtime)
                   empty_store
                   (sample_record §"Arctic ice" §"The ice is melting." §"a.org")
                   (VStr §"arctic ice") = Returned (5 # 6)%Q)
    by (vm_compute; reflexivity).
  split; [exact Hrun|].
  pose proof (initial_relevance_bounds (H := ascii_runtime) _ _ _ _ Hrun) as (H0 & H1 & _).
  by split.
Defined.

Lemma py_min_le_l (a b : Q) : (py_min a b <= a)%Q.
Proof.
  unfold py_min. destruct (Qle_bool a b) eqn:Hab; [apply Qle_refl|].
  apply Qnot_lt_le. intros Hlt. apply Qlt_le_weak in Hlt.
  apply Qle_bool_iff in Hlt. congruence.
Qed.

Lemma share_le_one {A} (p : A -> bool) (l : list A) :
  l <> [] -> (inject_Z (len (List.filter p l)) / inject_Z (len l) <= 1)%Q.
Proof.
  intros Hl. apply Qle_shift_div_r.
  - change 0%Q with (inject_Z 0). rewrite <- Zlt_Qlt. unfold len.
    destruct l; [done | simpl; lia].
  - rewrite Qmult_1_l. rewrite <- Zle_Qle. unfold len.
    pose proof (List.filter_length_le p l). lia.
Qed.

(** X7: the score of the heuristic summarizer never exceeds 1; for a
    result at position 3 or better it is not negative; from position 8 on
    it is negative for every sentence and query, the position term
    outweighing the other two. *)
Theorem heuristic_score_bounds `{PyRuntime} (stops : list text)
    (sentence query : text) (position : Q) :
  (AISearchSummarizer.score_with stops sentence query position <= 1)%Q
  /\ ((position <= 3)%Q ->
      (0 <= AISearchSummarizer.score_with stops sentence query position)%Q)
  /\ ((8 <= position)%Q ->
      (AISearchSummarizer.score_with stops sentence query position < 0)%Q).
Proof.
  unfold AISearchSummarizer.score_with.
  set (fill := py_min (inject_Z (len (split_ws sentence)) / 20) 1).
  assert (Hfill : (0 <= fill)%Q /\ (fill <= 1)%Q).
  { split; [|apply py_min_le_r]. apply py_min_nonneg; [|done].
    apply (ratio_nonneg _ 20); [apply len_nonneg | lia]. }
  set (base := (0 + (3 - position) / 3 * AISearchSummarizer.position_weight
                + fill * AISearchSummarizer.length_weight)%Q).
  unfold AISearchSummarizer.position_weight, AISearchSummarizer.length_weight,
    AISearchSummarizer.keyword_weight in *.
  assert (Hthird : ((3 - position) / 3 == (3 - position) * (1 # 3))%Q)
    by (unfold Qdiv; reflexivity).
  destruct (List.filter _ (text_set (split_ws (lower query)))) as [|w ws] eqn:Hterms.
  - split; [apply py_min_le_r|]. split.
    + intros Hpos. apply py_min_nonneg; [|done]. unfold base. rewrite Hthird. destruct Hfill. lra.
    + intros Hpos. eapply Qle_lt_trans; [apply py_min_le_l|].
      unfold base. rewrite Hthird. destruct Hfill. lra.
  - set (share := (inject_Z (len (List.filter _ (w :: ws))) / inject_Z (len (w :: ws)))%Q).
    assert (Hshare : (0 <= share)%Q /\ (share <= 1)%Q).
    { split; [apply ratio_nonneg; apply len_nonneg | by apply share_le_one]. }
    split; [apply py_min_le_r|]. split.
    + intros Hpos. apply py_min_nonneg; [|done].
      unfold base. rewrite Hthird. destruct Hfill, Hshare. lra.
    + intros Hpos. eapply Qle_lt_trans; [apply py_min_le_l|].
      unfold base. rewrite Hthird. destruct Hfill, Hshare. lra.
Qed.

Lemma heuristic_score_bounds_witness :
  (2 <= 3)%Q /\ (8 <= 9)%Q
  /\ (0 <= AISearchSummarizer.score_with (H := ascii_runtime) [§"the"]
             §"a cat sat on mats" §"the cat" 2)%Q
  /\ (AISearchSummarizer.score_with (H := ascii_runtime) [§"the"]
        §"a cat sat on mats" §"the cat" 9 < 0)%Q.
Proof.
  assert (Hnear : (2 <= 3)%Q) by done.
  assert (Hfar : (8 <= 9)%Q) by done.
  split; [exact Hnear|]. split; [exact Hfar|]. split.
  - exact (proj1 (proj2 (heuristic_score_bounds (H := ascii_runtime) [§"the"]
                           §"a cat sat on mats" §"the cat" 2)) Hnear).
  - exact (proj2 (proj2 (heuristic_score_bounds (H := ascii_runtime) [§"the"]
                           §"a cat sat on mats" §"the cat" 9)) Hfar).
Defined.

(** X8: the reliability the heuristic summarizer gives a source is one of
    the table's scores or the default: it lies between 0.6 and 0.9, and it
    is the default 0.6 when no trusted domain occurs in the
    lowered source. *)
Theorem source_reliability_range `{PyRuntime} (source : text) :
  (6 # 10 <= AISearchSummarizerText._score_source_reliability source)%Q
  /\ (AISearchSummarizerText._score_source_reliability source <= 9 # 10)%Q
  /\ (Forall (fun d => is_substring (fst d) (lower source) = false)
             AISearchSummarizerText.trusted_domains ->
      AISearchSummarizerText._score_source_reliability source = (6 # 10)%Q).
Proof.
  unfold AISearchSummarizerText._score_source_reliability.
  assert (Hin : forall q, AISearchSummarizerText.first_domain (lower source)
                            AISearchSummarizerText.trusted_domains = Some q ->
                          q ∈ map snd AISearchSummarizerText.trusted_domains).
  { generalize AISearchSummarizerText.trusted_domains.
    induction l as [|[d s] l IH]; simpl; [discriminate|].
    intros q. destruct (is_substring d (lower source)).
    - intros Heq. inversion Heq; subst. apply elem_of_cons. by left.
    - intros Heq. apply elem_of_cons. right. by apply IH. }
  split; [|split].
  - destruct (AISearchSummarizerText.first_domain _ _) as [q|]; [|done].
    specialize (Hin q eq_refl). simpl in Hin.
    repeat (apply elem_of_cons in Hin as [->|Hin]; [done|]). by apply elem_of_nil in Hin.
  - destruct (AISearchSummarizerText.first_domain _ _) as [q|]; [|done].
    specialize (Hin q eq_refl). simpl in Hin.
    repeat (apply elem_of_cons in Hin as [->|Hin]; [done|]). by apply elem_of_nil in Hin.
  - clear Hin. generalize AISearchSummarizerText.trusted_domains.
    induction 1 as [|[d s] l Hd Hl IH]; simpl; [done|]. simpl in Hd. by rewrite Hd.
Qed.

(** ** The summary of the pipeline *)

Lemma analysis_frame `{PyRuntime} (context : loc) (st : store) :
  (context < next st)%nat ->
  exists st' results,
    run_async AgenticSummarizer.analysis_pipeline context st = (st', Returned context)
    /\ ctx_of st' context = <[§"parallel_results" := VDict results]> (ctx_of st context)
    /\ (context < next st')%nat.
Proof.
  intros Hlt. unfold AgenticSummarizer.analysis_pipeline. cbn [run_async].
  unfold ParallelAgent.run_async. cbn [ParallelAgent.create_tasks].
  unfold ctx_copy, alloc. cbn [fst snd heap next clock].
  set (C := ctx_of st context).
  set (c1 := next st).
  set (st1 := mkStore (<[c1 := C]> (heap st)) (S c1) (clock st)).
  assert (HC1 : ctx_of st1 context = C).
  { unfold ctx_of, st1. simpl. rewrite lookup_insert_ne by (unfold c1; lia). done. }
  rewrite HC1.
  set (c2 := S c1).
  set (st2 := mkStore (<[c2 := C]> (heap st1)) (S c2) (clock st1)).
  cbn [ParallelAgent.await_tasks].
  change (mkStore (<[c2:=C]> (<[c1:=C]> (heap st))) (S c2) (clock st)) with st2.
  assert (HC2 : ctx_of st2 context = C).
  { rewrite <- HC1. unfold ctx_of, st2. simpl.
    rewrite lookup_insert_ne by (unfold c2, c1; lia). done. }
  destruct (leaf_content_analyzer c1 st2) as (Hn3 & Hh3 & _ & _).
  destruct (run_async ContentAnalyzerAgent.agent c1 st2) as [st3 o1]. simpl in Hn3, Hh3.
  assert (HC3 : ctx_of st3 context = C).
  { rewrite <- HC2. apply ctx_of_heap. apply Hh3. unfold c1. lia. }
  set (results1 := match o1 with
                   | Returned result => dict_set (name ContentAnalyzerAgent.agent)
                                                 (VRef result) []
                   | Raised e => dict_set (name ContentAnalyzerAgent.agent)
                                   (VDict [(§"error", VStr (str_exn e))]) []
                   end).
  destruct (leaf_insight_extractor c2 st3) as (Hn4 & Hh4 & _ & _).
  assert (Hgoal : forall results,
    exists st' results',
      (let '(results0, st5) :=
         match run_async InsightExtractorAgent.agent c2 st3 with
         | (st4, Returned result) =>
           (dict_set (name InsightExtractorAgent.agent) (VRef result) results, st4)
         | (st4, Raised e) =>
           (dict_set (name InsightExtractorAgent.agent)
                     (VDict [(§"error", VStr (str_exn e))]) results, st4)
         end in
       (ctx_set context §"parallel_results" (VDict results0) st5, Returned context))
      = (st', Returned context)
      /\ ctx_of st' context = <[§"parallel_results" := VDict results']> C
      /\ (context < next st')%nat).
  { intros results.
    destruct (run_async InsightExtractorAgent.agent c2 st3) as [st4 o2].
    simpl in Hn4, Hh4.
    assert (HC4 : ctx_of st4 context = C).
    { rewrite <- HC3. apply ctx_of_heap. apply Hh4. unfold c2, c1. lia. }
    destruct o2 as [result|e]; eexists _, _; (split; [reflexivity|]);
      (split; [by rewrite ctx_of_ctx_set_eq, HC4|]);
      simpl; rewrite Hn4, Hn3; simpl; unfold c2, c1; lia. }
  destruct o1 as [result|e]; cbn [ParallelAgent.await_tasks]; apply Hgoal.
Qed.

Lemma empty_summary_short (language : text) :
  0 < len (empty_summary language) < 50.
Proof.
  unfold empty_summary, SummaryGeneratorAgent.prefixes,
    SummaryGeneratorAgent.no_content_messages, table_lookup.
  repeat (destruct (text_eqb language _)); vm_compute; split; reflexivity.
Qed.

Lemma summary_generator_without_analysis `{PyRuntime} (c : loc) (st : store)
    (language : text) :
  ctx_of st c !! §"analyzed_sentences" = None ->
  ctx_of st c !! §"language" = Some (VStr language) ->
  run_async SummaryGeneratorAgent.agent c st
  = let st1 := ctx_set c §"generated_summary" (VStr (empty_summary language)) st in
    let st2 := ctx_set c §"summary_sentences" (VList []) st1 in
    (ctx_set c §"generation_timestamp" (VStr (isoformat (clock st2))) (tick st2),
     Returned c).
Proof.
  intros Han Hla. unfold SummaryGeneratorAgent.agent. cbn [run_async].
  unfold SummaryGeneratorAgent.run_async, ctx_get. rewrite Han, Hla.
  cbn [default from_option id]. reflexivity.
Qed.

Lemma critic_on_short_summary `{PyRuntime} (c : loc) (st : store)
    (summary query language : text) :
  0 < len summary < 50 ->
  ctx_of st c !! §"generated_summary" = Some (VStr summary) ->
  ctx_of st c !! §"query" = Some (VStr query) ->
  ctx_of st c !! §"language" = Some (VStr language) ->
  ctx_of st c !! §"themes" = None ->
  exists st',
    run_async CriticAgent.agent c st = (st', Returned c)
    /\ ctx_of st' c !! §"final_summary"
       = Some (VStr (summary
                     ++ default §" (based on limited information)"
                          (table_lookup language CriticAgent.clarifications)))
    /\ ctx_of st' c !! §"critic_suggestions"
       = Some (VList (map VStr
                (§"summary_too_short"
                 :: match text_set (split_ws (lower query)) with
                    | [] => []
                    | query_words =>
                      if CriticAgent.common query_words
                           (text_set (split_ws (lower summary))) =? 0
                      then [§"low_query_relevance"] else []
                    end))).
Proof.
  intros [Hpos Hshort] Hsum Hq Hla Hth. unfold CriticAgent.agent. cbn [run_async].
  unfold CriticAgent.run_async, ctx_get. rewrite Hsum, Hq, Hla, Hth.
  cbn [default from_option id].
  assert (Hquality : exists quality,
             CriticAgent._analyze_summary_quality st (VStr summary) (VStr query) (VDict [])
             = Returned quality).
  { unfold CriticAgent._analyze_summary_quality.
    destruct summary as [|ch rest]; [vm_compute in Hpos; discriminate|].
    cbn [truthy negb py_len obind CriticAgent.word_sets py_lower].
    destruct (text_set (split_ws (lower query))); eexists; reflexivity. }
  destruct Hquality as [quality ->]. cbn [obind].
  unfold CriticAgent._generate_improvement_suggestions.
  cbn [py_len obind CriticAgent.word_sets py_lower].
  assert (Hlt : (len summary <? 50) = true) by (apply Z.ltb_lt; lia).
  rewrite Hlt.
  set (query_words := text_set (split_ws (lower query))).
  set (summary_words := text_set (split_ws (lower summary))).
  assert (Hdone : forall suggestions,
            text_in §"summary_too_long" suggestions = false ->
            text_in §"summary_too_short" suggestions = true ->
            CriticAgent._apply_improvements summary suggestions (VStr language)
            = Returned (summary ++ default §" (based on limited information)"
                                     (table_lookup language CriticAgent.clarifications))).
  { intros suggestions Hlong Htoo. unfold CriticAgent._apply_improvements.
    rewrite Hlong, Htoo. by rewrite table_get_str. }
  destruct query_words as [|w ws].
  - cbn [obind]. rewrite Hdone by (vm_compute; reflexivity). cbn [obind].
    unfold now. cbn [fst snd]. eexists. split; [reflexivity|]. split.
    + rewrite !lookup_ctx_set_ne by (intros Heq; vm_compute in Heq; discriminate).
      rewrite ctx_of_tick.
      rewrite !lookup_ctx_set_ne by (intros Heq; vm_compute in Heq; discriminate).
      rewrite ctx_of_ctx_set_eq. by rewrite lookup_insert_eq.
    + rewrite !lookup_ctx_set_ne by (intros Heq; vm_compute in Heq; discriminate).
      rewrite ctx_of_tick. rewrite ctx_of_ctx_set_eq. by rewrite lookup_insert_eq.
  - destruct (CriticAgent.common (w :: ws) summary_words =? 0);
      cbn [obind]; rewrite Hdone by (vm_compute; reflexivity); cbn [obind];
      unfold now; cbn [fst snd]; (eexists; split; [reflexivity|]); split;
      rewrite ?lookup_ctx_set_ne by (intros Heq; vm_compute in Heq; discriminate);
      rewrite ctx_of_tick;
      rewrite ?lookup_ctx_set_ne by (intros Heq; vm_compute in Heq; discriminate);
      rewrite ctx_of_ctx_set_eq; by rewrite lookup_insert_eq.
Qed.

Lemma compile_details_suggestions (st : store) (c : loc) (content_analysis : value)
    (d : ExecutionDetails) :
  AgenticSummarizer.compile_details st c content_analysis = Returned d ->
  critic_suggestions d = ctx_get st c §"critic_suggestions" (VList []).
Proof.
  unfold AgenticSummarizer.compile_details.
  repeat match goal with
         | |- obind ?m _ = _ -> _ => destruct m; cbn [obind]; [|discriminate]
         end.
  intros Heq. by inversion Heq.
Qed.

Lemma compile_summary `{PyRuntime} (c : loc) (st st' : store) (r : SummaryResult) :
  AgenticSummarizer._compile_final_result c st = (st', Returned r) ->
  ai_summary r = ctx_get st c §"final_summary" (VStr [])
  /\ exists d, execution_details r = Some d
               /\ critic_suggestions d = ctx_get st c §"critic_suggestions" (VList []).
Proof.
  unfold AgenticSummarizer._compile_final_result.
  destruct (AgenticSummarizer.compile_head st c) as [[[[ca ins] n] srcs]|?]; [|discriminate].
  unfold now. simpl.
  destruct (AgenticSummarizer.compile_details st c ca) as [d|] eqn:Hd; simpl; [|discriminate].
  intros Heq. inversion Heq; subst. simpl. split; [reflexivity|].
  exists d. split; [reflexivity|]. by apply compile_details_suggestions in Hd.
Qed.

Ltac other_key := intros Heq; vm_compute in Heq; discriminate.

(** A run of the pipeline that ends with the compiled result, stage by
    stage: the records are fetched, and the result is compiled from a
    context that holds the fetched records, the notice as final summary and
    the critic's suggestions. *)
Lemma pipeline_run `{PyRuntime}
    (search_results : list value) (query language : text) (max_results : Z)
    (st st' : store) (r : SummaryResult) :
  AgenticSummarizer.summarize_search_results search_results query language
    max_results st = (st', Returned r) ->
  summarization_method r = §"multi_agent_agentic" ->
  exists processed context st6 others,
    length processed = length (slice_to max_results search_results)
    /\ AgenticSummarizer._compile_final_result context st6 = (st', Returned r)
    /\ ctx_of st6 context !! §"processed_results" = Some (VList processed)
    /\ ctx_of st6 context !! §"final_summary" = Some (VStr (insufficient_notice language))
    /\ ctx_of st6 context !! §"critic_suggestions"
       = Some (VList (VStr §"summary_too_short" :: others)).
Proof.
  intros Hrun Hmethod.
  destruct methods_differ as [Herr Hnone].
  destruct search_results as [|r0 rest].
  { unfold AgenticSummarizer.summarize_search_results,
      AgenticSummarizer._generate_no_results_summary in Hrun.
    rewrite table_get_str in Hrun. unfold now in Hrun. inversion Hrun; subst.
    simpl in Hmethod. by destruct (Hnone Hmethod). }
  unfold AgenticSummarizer.summarize_search_results in Hrun.
  set (results := r0 :: rest) in *. unfold now at 1 in Hrun. cbn [fst snd] in Hrun.
  unfold alloc in Hrun. cbn [fst snd] in Hrun.
  set (C0 := AgenticSummarizer.initial_context results query language max_results _) in Hrun.
  set (context := next (tick st)) in Hrun.
  set (st2 := mkStore _ _ _) in Hrun.
  assert (HC0 : ctx_of st2 context = C0).
  { unfold ctx_of, st2. simpl. by rewrite lookup_insert_eq. }
  destruct (initial_lookups results query language max_results
              (VStr (isoformat (clock st)))) as (Hsr & Hq & Hth & _ & _).
  fold C0 in Hsr, Hq, Hth.
  pose proof (initial_language results query language max_results
                (VStr (isoformat (clock st)))) as Hla. fold C0 in Hla.
  assert (Han : C0 !! §"analyzed_sentences" = None).
  { unfold C0, AgenticSummarizer.initial_context.
    rewrite !lookup_insert_ne by other_key. apply lookup_empty. }
  unfold AgenticSummarizer.run_async, AgenticSummarizer.main_workflow in Hrun.
  cbn [run_async] in Hrun. unfold SequentialAgent.run_async in Hrun.
  cbn [SequentialAgent.run_loop] in Hrun.
  rewrite (data_fetcher_run context st2 (slice_to max_results results) query) in Hrun;
    [| by rewrite HC0 | by rewrite HC0].
  destruct (mapM _ (enumerate_from 0 _)) as [processed|e] eqn:Hproc;
    [|error_contradiction Hrun Hmethod Herr].
  cbv beta iota zeta in Hrun.
  set (st3 := ctx_set context §"fetch_timestamp" _ _) in Hrun.
  assert (HC3 : forall k, k <> §"fetch_timestamp" -> k <> §"processed_results" ->
                          ctx_of st3 context !! k = C0 !! k).
  { intros k Hk1 Hk2. unfold st3. rewrite lookup_ctx_set_ne by done.
    rewrite ctx_of_tick. rewrite lookup_ctx_set_ne by done. by rewrite HC0. }
  assert (HP3 : ctx_of st3 context !! §"processed_results" = Some (VList processed)).
  { unfold st3. rewrite lookup_ctx_set_ne by other_key. rewrite ctx_of_tick.
    rewrite ctx_of_ctx_set_eq. by rewrite lookup_insert_eq. }
  destruct (analysis_frame context st3) as (st4 & entries & Hana & HC4 & Hlt4).
  { simpl. lia. }
  rewrite Hana in Hrun. cbv beta iota zeta in Hrun.
  assert (HC4' : forall k, k <> §"fetch_timestamp" -> k <> §"processed_results" ->
                           k <> §"parallel_results" ->
                           ctx_of st4 context !! k = C0 !! k).
  { intros k Hk1 Hk2 Hk3. rewrite HC4. rewrite lookup_insert_ne by done. by apply HC3. }
  assert (HP4 : ctx_of st4 context !! §"processed_results" = Some (VList processed)).
  { rewrite HC4. by rewrite lookup_insert_ne by other_key. }
  unfold AgenticSummarizer.generation_pipeline in Hrun. cbn [run_async] in Hrun.
  unfold SequentialAgent.run_async in Hrun. cbn [SequentialAgent.run_loop] in Hrun.
  rewrite (summary_generator_without_analysis context st4 language) in Hrun;
    [| rewrite HC4' by other_key; exact Han | rewrite HC4' by other_key; exact Hla].
  cbv beta iota zeta in Hrun.
  set (st5 := ctx_set context §"generation_timestamp" _ _) in Hrun.
  assert (HC5 : forall k, k <> §"generation_timestamp" -> k <> §"summary_sentences" ->
                          k <> §"generated_summary" ->
                          ctx_of st5 context !! k = ctx_of st4 context !! k).
  { intros k Hk1 Hk2 Hk3. unfold st5. rewrite lookup_ctx_set_ne by done.
    rewrite ctx_of_tick. by rewrite !lookup_ctx_set_ne by done. }
  destruct (critic_on_short_summary context st5 (empty_summary language) query language)
    as (st6 & Hcritic & Hfinal & Hsugg).
  { apply empty_summary_short. }
  { unfold st5. rewrite lookup_ctx_set_ne by other_key. rewrite ctx_of_tick.
    rewrite lookup_ctx_set_ne by other_key. rewrite ctx_of_ctx_set_eq.
    by rewrite lookup_insert_eq. }
  { rewrite HC5 by other_key. rewrite HC4' by other_key. exact Hq. }
  { rewrite HC5 by other_key. rewrite HC4' by other_key. exact Hla. }
  { rewrite HC5 by other_key. rewrite HC4' by other_key. exact Hth. }
  rewrite Hcritic in Hrun.
  destruct (leaf_critic context st5) as (_ & _ & Hkeep & _).
  rewrite Hcritic in Hkeep. cbn [fst] in Hkeep.
  destruct (AgenticSummarizer._compile_final_result context st6) as [st7 [r'|e]] eqn:Hcomp;
    [|error_contradiction Hrun Hmethod Herr].
  inversion Hrun; subst st7 r'.
  exists processed, context, st6. eexists.
  split; [|split; [exact Hcomp|split; [|split; [exact Hfinal | exact Hsugg]]]].
  - apply mapM_length in Hproc. rewrite Hproc. apply enumerate_from_length.
  - rewrite Hkeep by key_fact. rewrite HC5 by other_key. exact HP4.
Qed.

Lemma compile_counts `{PyRuntime} (c : loc) (st st' : store) (r : SummaryResult)
    (processed : list value) :
  AgenticSummarizer._compile_final_result c st = (st', Returned r) ->
  ctx_of st c !! §"processed_results" = Some (VList processed) ->
  source_count r = len processed
  /\ length (sources r) = length (firstn 3 processed).
Proof.
  unfold AgenticSummarizer._compile_final_result, AgenticSummarizer.compile_head.
  intros Hcomp Hproc. cbv zeta in Hcomp.
  replace (ctx_get st c §"processed_results" (VList [])) with (VList processed) in Hcomp
    by (unfold ctx_get; by rewrite Hproc).
  repeat match type of Hcomp with
         | context [obind (dict_get ?a ?b ?c ?d) _] =>
           destruct (dict_get a b c d); cbn [obind] in Hcomp; [|discriminate]
         end.
  cbn [py_len py_slice py_iter obind] in Hcomp.
  destruct (mapM _ (slice_to 3 processed)) as [srcs|?] eqn:Hsrcs;
    cbn [obind] in Hcomp; [|discriminate].
  unfold now in Hcomp.
  destruct (AgenticSummarizer.compile_details _ _ _); cbn [obind] in Hcomp; [|discriminate].
  inversion Hcomp; subst. simpl. split; [reflexivity|].
  by apply mapM_length in Hsrcs.
Qed.

(** X9: whatever the search results are, a run of the pipeline that ends
    with the compiled result never summarizes them.  The generator reads
    the analyzed sentences from the shared context, where the parallel
    analysis has published nothing, so it composes the insufficient-content
    message; that text is shorter than 50 characters in every language, so
    the critic appends the limited-information note and records
    [summary_too_short]. *)
Theorem pipeline_summary_is_the_notice `{PyRuntime}
    (search_results : list value) (query language : text) (max_results : Z)
    (st st' : store) (r : SummaryResult) :
  AgenticSummarizer.summarize_search_results search_results query language
    max_results st = (st', Returned r) ->
  summarization_method r = §"multi_agent_agentic" ->
  ai_summary r = VStr (insufficient_notice language)
  /\ exists d others,
      execution_details r = Some d
      /\ critic_suggestions d = VList (VStr §"summary_too_short" :: others).
Proof.
  intros Hrun Hmethod.
  destruct (pipeline_run _ _ _ _ _ _ _ Hrun Hmethod)
    as (processed & context & st6 & others & _ & Hcomp & _ & Hfinal & Hsugg).
  apply compile_summary in Hcomp as (Hsummary & d & Hd & Hds).
  unfold ctx_get in Hsummary, Hds. rewrite Hfinal in Hsummary. rewrite Hsugg in Hds.
  split; [exact Hsummary|]. by exists d, others.
Qed.

Lemma pipeline_summary_is_the_notice_witness :
  exists st' r,
    AgenticSummarizer.summarize_search_results (H := ascii_runtime) sample_results
      §"arctic ice" §"english" 3 empty_store = (st', Returned r)
    /\ summarization_method r = §"multi_agent_agentic"
    /\ ai_summary r = VStr (insufficient_notice §"english").
Proof.
  eexists _, _. split; [vm_compute; reflexivity|]. split; [reflexivity|].
  refine (proj1 (pipeline_summary_is_the_notice (H := ascii_runtime)
                   sample_results §"arctic ice" §"english" 3 empty_store _ _ _ _));
    [vm_compute; reflexivity | reflexivity].
Defined.

(** X14: the result of the pipeline counts the records it worked on, which
    are the records left by the cut at [max_results], not the records
    supplied, and it lists the sources of the first three of them. *)
Theorem pipeline_counts_the_cut `{PyRuntime}
    (search_results : list value) (query language : text) (max_results : Z)
    (st st' : store) (r : SummaryResult) :
  AgenticSummarizer.summarize_search_results search_results query language
    max_results st = (st', Returned r) ->
  summarization_method r = §"multi_agent_agentic" ->
  source_count r = len (slice_to max_results search_results)
  /\ len (sources r) = Z.min 3 (source_count r).
Proof.
  intros Hrun Hmethod.
  destruct (pipeline_run _ _ _ _ _ _ _ Hrun Hmethod)
    as (processed & context & st6 & others & Hlen & Hcomp & Hproc & _ & _).
  destruct (compile_counts _ _ _ _ _ Hcomp Hproc) as [Hcount Hsources].
  rewrite Hcount. unfold len in *. rewrite Hsources, Hlen, length_take. lia.
Qed.

Lemma pipeline_counts_the_cut_witness :
  exists st' r,
    AgenticSummarizer.summarize_search_results (H := ascii_runtime) sample_results
      §"arctic ice" §"english" 2 empty_store = (st', Returned r)
    /\ summarization_method r = §"multi_agent_agentic"
    /\ source_count r = len (slice_to 2 sample_results).
Proof.
  eexists _, _. split; [vm_compute; reflexivity|]. split; [reflexivity|].
  refine (proj1 (pipeline_counts_the_cut (H := ascii_runtime)
                   sample_results §"arctic ice" §"english" 2 empty_store _ _ _ _));
    [vm_compute; reflexivity | reflexivity].
Defined.

(** ** The length limit of the heuristic summarizer *)

Lemma lstrip_snoc_space (x : text) :
  lstrip (x ++ [SPACE])
  = match lstrip x with [] => [] | _ => lstrip x ++ [SPACE] end.
Proof.
  induction x as [|c r IH]; simpl; [reflexivity|].
  destruct (is_space c); [exact IH | reflexivity].
Qed.

Lemma strip_snoc_space (x : text) : strip (x ++ [SPACE]) = strip x.
Proof.
  unfold strip. rewrite lstrip_snoc_space.
  destruct (lstrip x) as [|c r]; [reflexivity|].
  rewrite rev_app_distr. reflexivity.
Qed.

Lemma truncate_loop_shape (sentences : list text) (truncated : text) :
  Forall (Forall (fun c => is_sentence_end c = false)) sentences ->
  Forall (fun c => is_sentence_end c = false) truncated ->
  (truncated = [] \/ exists x, truncated = x ++ [SPACE] /\ len x <= max_length) ->
  let out := AISearchSummarizerText.truncate_loop sentences truncated in
  Forall (fun c => is_sentence_end c = false) out
  /\ (out = [] \/ exists x, out = x ++ [SPACE] /\ len x <= max_length).
Proof.
  intros Hall. revert truncated.
  induction Hall as [|s rest Hs _ IH]; intros truncated Ht Hshape; simpl; [done|].
  destruct (max_length <? len (truncated ++ s)) eqn:Hlen; [done|].
  apply IH.
  - apply Forall_app. split; [exact Ht|]. apply Forall_app. split; [exact Hs|].
    by constructor.
  - right. exists (truncated ++ s). split; [by rewrite app_assoc|].
    by apply Z.ltb_ge in Hlen.
Qed.

Lemma no_terminator_no_dot (t : text) :
  Forall (fun c => is_sentence_end c = false) t -> endswith_dot t = false.
Proof.
  intros Ht. unfold endswith_dot. apply Forall_rev in Ht.
  destruct (rev t) as [|c r]; [reflexivity|].
  apply Forall_cons in Ht as [Hc _].
  destruct (c =? DOT)%N eqn:Hdot; [|reflexivity].
  apply N.eqb_eq in Hdot. subst c. discriminate.
Qed.

Lemma strip_with_ellipsis (cut : text) :
  blank_free_ends cut -> strip (cut ++ ELLIPSIS) = cut ++ ELLIPSIS.
Proof.
  intros [Hfirst _]. apply strip_fixed. split.
  - intros c r Heq. destruct cut as [|c0 r0].
    + simpl in Heq. inversion Heq; subst. reflexivity.
    + simpl in Heq. inversion Heq; subst. by apply (Hfirst c r0).
  - intros c r Heq. rewrite rev_app_distr in Heq. simpl in Heq.
    inversion Heq; subst. reflexivity.
Qed.

(** X10: the text the heuristic summarizer formats is never longer than
    403 characters.  When the normalized text is longer than 400 characters
    it is rebuilt from its sentences, whose terminators the split has
    dropped: the rebuilt text holds none of [.!?।॥], never ends with a
    full stop, and always receives the ellipsis. *)
Theorem clean_and_format_bounded (t : text) (language : value) :
  len (AISearchSummarizerText._clean_and_format_summary t language) <= max_length + 3
  /\ (max_length < len (AISearchSummarizerText.collapse_dots (collapse_ws t)) ->
      exists cut,
        AISearchSummarizerText._clean_and_format_summary t language = cut ++ ELLIPSIS
        /\ len cut <= max_length
        /\ Forall (fun c => is_sentence_end c = false) cut).
Proof.
  unfold AISearchSummarizerText._clean_and_format_summary.
  set (normal := AISearchSummarizerText.collapse_dots (collapse_ws t)).
  assert (Hcut : exists cut,
             strip (AISearchSummarizerText.truncate_loop
                      (AISearchSummarizerText._split_into_sentences normal) []) = cut
             /\ len cut <= max_length
             /\ Forall (fun c => is_sentence_end c = false) cut
             /\ blank_free_ends cut).
  { eexists. split; [reflexivity|].
    destruct (truncate_loop_shape
                (AISearchSummarizerText._split_into_sentences normal) [])
      as [Hno Hshape].
    - eapply Forall_impl; [apply split_sentences_shape|]. intros s (_ & _ & Hs). exact Hs.
    - constructor.
    - by left.
    - split; [|split; [by apply Forall_strip | apply strip_ends]].
      destruct Hshape as [->|(x & -> & Hx)]; [done|].
      rewrite strip_snoc_space. pose proof (length_strip x). unfold len in *. lia. }
  destruct Hcut as (cut & Hcut & Hlen & Hno & Hends). rewrite Hcut.
  rewrite (no_terminator_no_dot cut Hno). cbn [negb].
  destruct (max_length <? len normal) eqn:Hlong.
  - rewrite strip_with_ellipsis by exact Hends. split.
    + unfold len in *. rewrite length_app. change (length ELLIPSIS) with 3%nat. lia.
    + intros _. by exists cut.
  - apply Z.ltb_ge in Hlong. split; [|lia].
    pose proof (length_strip normal). unfold len in *. lia.
Qed.

(** A long text loses its punctuation: 81 sentences of [ab c.] come back as
    one run of words closed by the ellipsis. *)
Example clean_and_format_drops_stops :
  AISearchSummarizerText._clean_and_format_summary
    (concat (replicate 81 §"ab c.")) (VStr §"english")
  = join_space (replicate 80 §"ab c") ++ ELLIPSIS.
Proof. vm_compute. reflexivity. Qed.

(** ** The critic's score *)

(** X11: the quality the critic assigns is a number between 0 and 1, and an
    empty summary scores 0 whatever the query and the themes are. *)
Theorem summary_quality_bounds `{PyRuntime} (st : store)
    (summary query themes : value) (quality : Q) :
  CriticAgent._analyze_summary_quality st summary query themes = Returned quality ->
  (0 <= quality)%Q /\ (quality <= 1)%Q
  /\ (truthy st summary = false -> quality = 0%Q).
Proof.
  unfold CriticAgent._analyze_summary_quality. intros Hq.
  destruct (truthy st summary) eqn:Htruth; cbn [negb] in Hq.
  2:{ inversion Hq; subst. repeat split; done. }
  destruct (py_len st summary) as [length|?]; cbn [obind] in Hq; [|discriminate].
  set (base := if (100 <=? length) && (length <=? 500) then (3 # 10)%Q
               else if 50 <? length then (15 # 100)%Q else 0%Q) in Hq.
  assert (Hbase : (0 <= base)%Q).
  { unfold base. destruct ((100 <=? length) && (length <=? 500)); [done|].
    by destruct (50 <? length). }
  destruct (CriticAgent.word_sets query summary) as [[query_words summary_words]|?];
    cbn [obind] in Hq; [|discriminate].
  set (with_query := match query_words with
                     | [] => base
                     | _ => (base + inject_Z (CriticAgent.common query_words summary_words)
                                    / inject_Z (len query_words) * (4 # 10))%Q
                     end) in Hq.
  assert (Hwith : (0 <= with_query)%Q).
  { unfold with_query. destruct query_words as [|w ws]; [exact Hbase|].
    apply sum_nonneg; [exact Hbase|]. apply scaled_nonneg; [|done].
    apply ratio_nonneg; apply len_nonneg. }
  destruct (truthy st themes).
  - destruct (dict_keys st themes) as [keys|?]; cbn [obind] in Hq; [|discriminate].
    inversion Hq; subst. split; [|split; [apply py_min_le_r | discriminate]].
    apply py_min_nonneg; [|done]. apply sum_nonneg; [exact Hwith|].
    apply scaled_nonneg; [|done]. apply ratio_nonneg; apply len_nonneg.
  - cbn [obind] in Hq. inversion Hq; subst.
    split; [|split; [apply py_min_le_r | discriminate]].
    by apply py_min_nonneg.
Qed.

Lemma summary_quality_bounds_witness :
  exists quality,
    CriticAgent._analyze_summary_quality (H := ascii_runtime) empty_store
      (VStr §"Arctic ice is melting.") (VStr §"arctic ice") (VDict [])
    = Returned quality
    /\ (0 <= quality)%Q /\ (quality <= 1)%Q.
Proof.
  eexists. split; [vm_compute; reflexivity|].
  pose proof (summary_quality_bounds (H := ascii_runtime) empty_store
                (VStr §"Arctic ice is melting.") (VStr §"arctic ice") (VDict []) _
                ltac:(vm_compute; reflexivity)) as (H0 & H1 & _).
  split; [exact H0 | exact H1].
Defined.

(** ** The selection loop *)

Lemma select_loop_early `{PyRuntime} (st : store) (c : value) (rest selected : list value)
    (used : list value) (coverage : list text) (out : list value) :
  len selected < 2 ->
  SummaryGeneratorAgent.select_loop st (c :: rest) selected used coverage = Returned out ->
  exists used' coverage',
    SummaryGeneratorAgent.select_loop st rest (selected ++ [c]) used' coverage'
    = Returned out.
Proof.
  intros Hlen. cbn [SummaryGeneratorAgent.select_loop].
  assert (H3 : (3 <=? len selected) = false) by (apply Z.leb_gt; lia).
  assert (H2 : (len selected <? 2) = true) by (apply Z.ltb_lt; lia).
  rewrite H3, H2.
  destruct (getitem st c §"source") as [source|?]; cbn [obind]; [|discriminate].
  destruct (getitem st c §"text") as [txt|?]; cbn [obind]; [|discriminate].
  destruct (SummaryGeneratorAgent._extract_themes_from_text txt) as [themes|?];
    cbn [obind]; [|discriminate].
  destruct (value_in source used) as [seen|?]; cbn [obind]; [|discriminate].
  rewrite !orb_true_r. cbn [obind].
  intros Hout. by eexists _, _.
Qed.

Lemma select_loop_grows `{PyRuntime} (st : store) (candidates selected : list value)
    (used : list value) (coverage : list text) (out : list value) :
  SummaryGeneratorAgent.select_loop st candidates selected used coverage = Returned out ->
  exists picked,
    out = selected ++ picked /\ sublist picked candidates
    /\ (len selected <= 3 -> len out <= 3).
Proof.
  revert selected used coverage.
  induction candidates as [|c rest IH]; intros selected used coverage.
  - simpl. intros Heq. inversion Heq; subst. exists []. rewrite app_nil_r. done.
  - cbn [SummaryGeneratorAgent.select_loop].
    destruct (3 <=? len selected) eqn:H3.
    { intros Heq. inversion Heq; subst. exists []. rewrite app_nil_r.
      split; [done|]. split; [apply sublist_nil_l | done]. }
    apply Z.leb_gt in H3.
    destruct (getitem st c §"source") as [source|?]; cbn [obind]; [|discriminate].
    destruct (getitem st c §"text") as [txt|?]; cbn [obind]; [|discriminate].
    destruct (SummaryGeneratorAgent._extract_themes_from_text txt) as [themes|?];
      cbn [obind]; [|discriminate].
    destruct (value_in source used) as [seen|?]; cbn [obind]; [|discriminate].
    match goal with
    | |- obind ?m _ = _ -> _ => destruct m as [[|]|?]; cbn [obind]; [| |discriminate]
    end.
    + intros Hout. apply IH in Hout as (picked & -> & Hsub & Hlen).
      exists (c :: picked). split; [by rewrite <- app_assoc|].
      split; [by apply sublist_skip|]. intros _. apply Hlen.
      unfold len in *. rewrite length_app. simpl. lia.
    + intros Hout. apply IH in Hout as (picked & -> & Hsub & Hlen).
      exists picked. split; [done|]. split; [by apply sublist_cons | exact Hlen].
Qed.

(** X12: the sentences the generator selects are at most three, they are
    taken in order from the ten best analyzed sentences, and the two best
    are always among them, whatever their sources and themes. *)
Theorem select_summary_sentences_shape `{PyRuntime} (st : store)
    (sentences : list value) (themes : value) (out : list value) :
  SummaryGeneratorAgent._select_summary_sentences st (VList sentences) themes
  = Returned out ->
  len out <= 3
  /\ sublist out (slice_to 10 sentences)
  /\ exists tail, out = firstn 2 sentences ++ tail.
Proof.
  unfold SummaryGeneratorAgent._select_summary_sentences.
  destruct sentences as [|a rest].
  { simpl. intros Heq. inversion Heq; subst. split; [done|]. split; [done|]. by exists []. }
  cbn [truthy negb SummaryGeneratorAgent.top10 py_slice py_iter obind].
  intros Hout. split; [|split].
  - apply select_loop_grows in Hout as (picked & -> & _ & Hlen). by apply Hlen.
  - apply select_loop_grows in Hout as (picked & -> & Hsub & _). exact Hsub.
  - change (slice_to 10 (a :: rest)) with (a :: firstn 9 rest) in Hout.
    apply select_loop_early in Hout as (used1 & cov1 & Hout); [|done].
    destruct rest as [|b rest].
    + simpl in Hout. inversion Hout; subst. by exists [].
    + change (firstn 9 (b :: rest)) with (b :: firstn 8 rest) in Hout.
      apply select_loop_early in Hout as (used2 & cov2 & Hout); [|done].
      apply select_loop_grows in Hout as (picked & -> & _ & _). by exists picked.
Qed.

Lemma select_summary_sentences_shape_witness :
  exists out,
    SummaryGeneratorAgent._select_summary_sentences (H := ascii_runtime) empty_store
      (VList (map sentence_value sample_sentences)) (VDict []) = Returned out
    /\ len out <= 3.
Proof.
  eexists. split; [vm_compute; reflexivity|].
  refine (proj1 (select_summary_sentences_shape (H := ascii_runtime) empty_store
                   (map sentence_value sample_sentences) (VDict []) _ _)).
  vm_compute. reflexivity.
Defined.

(** ** What the analysis publishes *)

Lemma Forall_insert_desc {A} (key : A -> Q) (P : A -> Prop) (x : A) (l : list A) :
  P x -> Forall P l -> Forall P (insert_desc key x l).
Proof.
  intros Hx. induction 1 as [|y r Hy Hr IH]; simpl; [by constructor|].
  destruct (Qle_bool (key y) (key x)); constructor; try done. by constructor.
Qed.

Lemma Forall_sort_desc {A} (key : A -> Q) (P : A -> Prop) (l : list A) :
  Forall P l -> Forall P (sort_desc key l).
Proof.
  unfold sort_desc. induction 1 as [|x r Hx _ IH]; simpl; [constructor|].
  by apply Forall_insert_desc.
Qed.

Lemma insert_desc_descending {A} (key : A -> Q) (x : A) (l : list A) :
  descending (map key l) -> descending (map key (insert_desc key x l)).
Proof.
  induction l as [|y r IH]; simpl; [done|].
  intros [Hall Hdesc]. destruct (Qle_bool (key y) (key x)) eqn:Hle; simpl.
  - apply Qle_bool_iff in Hle. split; [|done].
    constructor; [exact Hle|]. eapply Forall_impl; [exact Hall|].
    intros b Hb. simpl in Hb. by apply Qle_trans with (key y).
  - split; [|by apply IH].
    assert (Hx : (key x <= key y)%Q).
    { apply Qnot_lt_le. intros Hlt. apply Qlt_le_weak in Hlt.
      apply Qle_bool_iff in Hlt. congruence. }
    apply (proj2 (List.Forall_map key (fun b => (b <= key y)%Q) (insert_desc key x r))).
    apply Forall_insert_desc; [exact Hx|].
    exact (proj1 (List.Forall_map key (fun b => (b <= key y)%Q) r) Hall).
Qed.

Lemma sort_desc_descending {A} (key : A -> Q) (l : list A) :
  descending (map key (sort_desc key l)).
Proof.
  unfold sort_desc. induction l as [|x r IH]; simpl; [done|].
  by apply insert_desc_descending.
Qed.

Lemma sort_desc_length {A} (key : A -> Q) (l : list A) :
  length (sort_desc key l) = length l.
Proof.
  unfold sort_desc. induction l as [|x r IH]; simpl; [done|].
  rewrite <- IH. generalize (foldr (insert_desc key) [] r). intros l'.
  induction l' as [|y r' IH']; simpl; [done|].
  destruct (Qle_bool (key y) (key x)); simpl; [done | by rewrite IH'].
Qed.

Lemma analyzed_sentence_long `{PyRuntime} (st : store) (result query language : value)
    (sentence : text) (s : sentence_data) (themes entities : list text) :
  ContentAnalyzerAgent.analyze_sentence st result query language sentence
  = Returned (Some (s, themes, entities)) ->
  4 < len (split_ws (s_text s)).
Proof.
  unfold ContentAnalyzerAgent.analyze_sentence.
  destruct (4 <? len (split_ws sentence)) eqn:Hlong; [|discriminate].
  apply Z.ltb_lt in Hlong.
  repeat match goal with
         | |- obind ?m _ = _ -> _ => destruct m; cbn [obind]; [|discriminate]
         end.
  intros Heq. inversion Heq; subst. exact Hlong.
Qed.

(** X13: when the analysis stage returns, the sentences it publishes are
    ordered by score, best first, every one of them has at least five
    words, and the theme table holds at most ten themes. *)
Theorem content_analysis_published `{PyRuntime} (context : loc) (st st' : store)
    (returned : loc) :
  run_async ContentAnalyzerAgent.agent context st = (st', Returned returned) ->
  returned = context
  /\ exists sentences themes,
      ctx_of st' context !! §"analyzed_sentences"
      = Some (VList (map sentence_value sentences))
      /\ descending (map s_score sentences)
      /\ Forall (fun s => 4 < len (split_ws (s_text s))) sentences
      /\ ctx_of st' context !! §"themes" = Some (VDict themes)
      /\ len themes <= 10.
Proof.
  unfold ContentAnalyzerAgent.agent. cbn [run_async].
  unfold ContentAnalyzerAgent.run_async.
  set (query := ctx_get st context §"query" _).
  set (language := ctx_get st context §"language" _).
  destruct (py_iter st _) as [results|?]; cbn [obind]; [|discriminate].
  destruct (mapM _ results) as [per_result|?] eqn:Hmap; [|discriminate].
  unfold now. cbn [fst snd]. intros Heq. inversion Heq; subst st' returned. clear Heq.
  split; [reflexivity|].
  set (found := omap id (concat per_result)).
  exists (sort_desc s_score (map (fun x => fst (fst x)) found)).
  eexists. split; [|split; [|split; [|split]]].
  - rewrite lookup_ctx_set_ne by (intros Heq; vm_compute in Heq; discriminate).
    rewrite ctx_of_tick.
    rewrite !lookup_ctx_set_ne by (intros Heq; vm_compute in Heq; discriminate).
    rewrite ctx_of_ctx_set_eq. by rewrite lookup_insert_eq.
  - apply sort_desc_descending.
  - apply Forall_sort_desc.
    apply (proj2 (List.Forall_map (fun x => fst (fst x))
                    (fun s => 4 < len (split_ws (s_text s))) found)).
    unfold found. apply Forall_omap_id.
    apply Forall_concat.
    eapply (mapM_Forall _ _ _ _ _ Hmap).
  - rewrite lookup_ctx_set_ne by (intros Heq; vm_compute in Heq; discriminate).
    rewrite ctx_of_tick.
    rewrite lookup_ctx_set_ne by (intros Heq; vm_compute in Heq; discriminate).
    rewrite ctx_of_ctx_set_eq. by rewrite lookup_insert_eq.
  - unfold len. rewrite length_map. unfold most_common.
    rewrite length_take. lia.
  Unshelve.
  intros result analyzed Hres. unfold ContentAnalyzerAgent.analyze_result in Hres.
  destruct (getitem st result §"title") as [title|?]; cbn [obind] in Hres; [|discriminate].
  destruct (getitem st result §"snippet") as [snippet|?]; cbn [obind] in Hres;
    [|discriminate].
  eapply mapM_Forall; [|exact Hres].
  intros sentence [[[s themes] entities]|] Hs x Hx; [|discriminate].
  inversion Hx; subst x. simpl. by eapply analyzed_sentence_long.
Qed.

Lemma content_analysis_published_witness :
  exists st' sentences,
    run_async (ContentAnalyzerAgent.agent (H := ascii_runtime)) 0%nat fetched_store
    = (st', Returned 0%nat)
    /\ ctx_of st' 0%nat !! §"analyzed_sentences"
       = Some (VList (map sentence_value sentences))
    /\ descending (map s_score sentences).
Proof.
  destruct (content_analysis_published (H := ascii_runtime) 0%nat fetched_store
              (fst (run_async (ContentAnalyzerAgent.agent (H := ascii_runtime))
                              0%nat fetched_store)) 0%nat)
    as (_ & sentences & themes & Hpub & Hdesc & _).
  { vm_compute. reflexivity. }
  eexists _, sentences. split; [vm_compute; reflexivity|]. split; [exact Hpub | exact Hdesc].
Defined.

(** ** Composition of sequential agents *)

Lemma sequential_run_split (pre post : list BaseAgent) (context : loc) (st : store) :
  SequentialAgent.run_loop (pre ++ post) context st
  = match SequentialAgent.run_loop pre context st with
    | (st1, Returned context1) => SequentialAgent.run_loop post context1 st1
    | (st1, Raised e) => (st1, Raised e)
    end.
Proof.
  revert context st. induction pre as [|agent pre IH]; intros context st; simpl; [done|].
  destruct (run_async agent context st) as [st1 [c1|e]]; [apply IH | done].
Qed.

(** X15: a sequential agent used as a stage of another sequential agent
    runs exactly as its stages would in its place: nesting and flattening a
    pipeline give the same store and the same outcome, failures included. *)
Theorem sequential_nesting_flattens (pre inner post : list BaseAgent) (n : text)
    (context : loc) (st : store) :
  SequentialAgent.run_async
    (pre ++ mkAgent n (SequentialAgent.run_async inner) :: post) context st
  = SequentialAgent.run_async (pre ++ inner ++ post) context st.
Proof.
  unfold SequentialAgent.run_async. rewrite !sequential_run_split.
  destruct (SequentialAgent.run_loop pre context st) as [st1 [c1|e]]; [|done].
  cbn [SequentialAgent.run_loop run_async]. unfold SequentialAgent.run_async.
  rewrite sequential_run_split.
  by destruct (SequentialAgent.run_loop inner c1 st1) as [st2 [c2|e]].
Qed.

(** ** What the fetch stage publishes *)

Lemma clean_text_stripped (st : store) (v : value) (t : text) :
  DataFetcherAgent._clean_text st v = Returned t -> strip t = t.
Proof.
  unfold DataFetcherAgent._clean_text. destruct (truthy st v); cbn [negb].
  - destruct v; try discriminate. intros Heq. inversion Heq; subst.
    apply strip_idempotent.
  - intros Heq. by inversion Heq.
Qed.

Lemma process_result_shape `{PyRuntime} (st : store) (query : value) (idx : Z)
    (result p : value) :
  DataFetcherAgent.process_result st query (idx, result) = Returned p ->
  fetched_record idx p.
Proof.
  unfold DataFetcherAgent.process_result. intros Hp.
  destruct (dict_get st result §"title" (VStr [])) as [title0|?];
    cbn [obind] in Hp; [|discriminate].
  destruct (DataFetcherAgent._clean_text st title0) as [title|?] eqn:Ht;
    cbn [obind] in Hp; [|discriminate].
  destruct (dict_get st result §"snippet" (VStr [])) as [snippet0|?];
    cbn [obind] in Hp; [|discriminate].
  destruct (DataFetcherAgent._clean_text st snippet0) as [snippet|?] eqn:Hs;
    cbn [obind] in Hp; [|discriminate].
  repeat match type of Hp with
         | obind ?m _ = _ => destruct m; cbn [obind] in Hp; [|discriminate]
         end.
  inversion Hp; subst. eexists _, _, _, _. split; [reflexivity|].
  split; by eapply clean_text_stripped.
Qed.

Lemma processed_positions `{PyRuntime} (st : store) (query : value)
    (items : list value) (i : Z) (processed : list value) :
  mapM (DataFetcherAgent.process_result st query) (enumerate_from i items)
  = Returned processed ->
  forall (j : nat) p, processed !! j = Some p -> fetched_record (i + Z.of_nat j) p.
Proof.
  revert i processed. induction items as [|x rest IH]; intros i processed Hp;
    cbn [enumerate_from mapM] in Hp.
  - inversion Hp; subst. intros j p Hj. by rewrite lookup_nil in Hj.
  - destruct (DataFetcherAgent.process_result st query (i, x)) as [v|?] eqn:Hv;
      cbn [obind] in Hp; [|discriminate].
    destruct (mapM _ (enumerate_from (i + 1) rest)) as [vs|?] eqn:Hvs;
      cbn [obind] in Hp; [|discriminate].
    inversion Hp; subst. intros [|j] p Hj; simpl in Hj.
    + inversion Hj; subst. rewrite Z.add_0_r. by eapply process_result_shape.
    + replace (i + Z.of_nat (S j)) with (i + 1 + Z.of_nat j) by lia.
      by eapply IH.
Qed.

(** X17: when the fetch stage returns it has published one record per
    search result, in the order of the results; the record at index [i]
    carries the position [i] and exactly the entries [title], [snippet],
    [source], [position] and [relevance_score], and its title and snippet
    have no blank at either end. *)
Theorem data_fetcher_published `{PyRuntime} (context : loc) (st st' : store)
    (returned : loc) :
  run_async DataFetcherAgent.agent context st = (st', Returned returned) ->
  exists items processed,
    py_iter st (ctx_get st context §"search_results" (VList [])) = Returned items
    /\ ctx_of st' context !! §"processed_results" = Some (VList processed)
    /\ length processed = length items
    /\ forall (i : nat) p, processed !! i = Some p -> fetched_record (Z.of_nat i) p.
Proof.
  unfold DataFetcherAgent.agent. cbn [run_async]. unfold DataFetcherAgent.run_async.
  destruct (py_iter st _) as [items|?]; cbn [obind]; [|discriminate].
  destruct (mapM _ (enumerate_from 0 items)) as [processed|?] eqn:Hproc; [|discriminate].
  unfold now. cbn [fst snd]. intros Heq. inversion Heq; subst st' returned. clear Heq.
  exists items, processed. split; [reflexivity|]. split; [|split].
  - rewrite lookup_ctx_set_ne by (intros Heq; vm_compute in Heq; discriminate).
    rewrite ctx_of_tick. rewrite ctx_of_ctx_set_eq. by rewrite lookup_insert_eq.
  - apply mapM_length in Hproc. rewrite Hproc. apply enumerate_from_length.
  - intros i p Hi. by apply (processed_positions _ _ _ _ _ Hproc i p Hi).
Qed.

Lemma data_fetcher_published_witness :
  exists st' processed,
    run_async (DataFetcherAgent.agent (H := ascii_runtime)) 0%nat request_store
    = (st', Returned 0%nat)
    /\ ctx_of st' 0%nat !! §"processed_results" = Some (VList processed)
    /\ length processed = 2%nat.
Proof.
  destruct (data_fetcher_published (H := ascii_runtime) 0%nat request_store
              fetched_store 0%nat)
    as (items & processed & Hitems & Hpub & Hlen & _).
  { vm_compute. reflexivity. }
  exists fetched_store, processed. split; [vm_compute; reflexivity|].
  split; [exact Hpub|].
  rewrite Hlen. vm_compute in Hitems. inversion Hitems. reflexivity.
Defined.

(** ** Themes and stop words *)

Lemma text_in_long_words (w : text) (stops : list text) :
  3 < len w ->
  text_in w stops = text_in w (List.filter (fun s => 3 <? len s) stops).
Proof.
  intros Hw. unfold text_in. induction stops as [|s rest IH]; simpl; [done|].
  destruct (3 <? len s) eqn:Hs; simpl; [by rewrite IH|].
  rewrite IH. apply Z.ltb_ge in Hs.
  unfold text_eqb. rewrite bool_decide_eq_false_2; [done|].
  intros ->. lia.
Qed.

Lemma filter_none_long {A} (p q : A -> bool) (l : list A) :
  existsb p l = false -> List.filter (fun x => p x && q x) l = [].
Proof.
  induction l as [|x r IH]; simpl; [done|].
  destruct (p x); simpl; [discriminate | exact IH].
Qed.

Lemma extract_themes_with `{PyRuntime} (sentence language : text) (long_stops : list text) :
  List.filter (fun s => 3 <? len s)
    (default [] (table_lookup language ContentAnalyzerAgent.stop_words)) = long_stops ->
  ContentAnalyzerAgent._extract_themes sentence (VStr language)
  = Returned (firstn 3 (List.filter (fun w => (3 <? len w) && negb (text_in w long_stops))
                          (runs is_word (lower sentence)))).
Proof.
  intros Hstops. unfold ContentAnalyzerAgent._extract_themes.
  destruct (existsb _ (runs is_word (lower sentence))) eqn:Hlong.
  - rewrite table_get_str. cbn [obind]. do 2 f_equal.
    apply List.filter_ext. intros w. destruct (3 <? len w) eqn:Hw; [|done].
    apply Z.ltb_lt in Hw. cbn [andb]. f_equal.
    rewrite (text_in_long_words w _ Hw). by rewrite Hstops.
  - by rewrite (filter_none_long _ _ _ Hlong).
Qed.

(** X18: a theme is a word longer than three characters, so a stop word of
    at most three characters is never consulted.  Every Hindi stop word is
    that short: in Hindi the stop-word table removes nothing from the
    themes.  In English the only stop word that can be removed is [with]. *)
Theorem themes_stop_words_effect `{PyRuntime} (sentence : text) :
  ContentAnalyzerAgent._extract_themes sentence (VStr §"hindi")
  = Returned (firstn 3 (List.filter (fun w => 3 <? len w) (runs is_word (lower sentence))))
  /\ ContentAnalyzerAgent._extract_themes sentence (VStr §"english")
     = Returned (firstn 3 (List.filter
                             (fun w => (3 <? len w) && negb (text_eqb w §"with"))
                             (runs is_word (lower sentence)))).
Proof.
  split.
  - rewrite (extract_themes_with sentence §"hindi" []) by (vm_compute; reflexivity).
    do 2 f_equal. apply List.filter_ext. intros w. simpl. by rewrite andb_true_r.
  - rewrite (extract_themes_with sentence §"english" [§"with"]) by (vm_compute; reflexivity).
    do 2 f_equal. apply List.filter_ext. intros w. unfold text_in. simpl.
    by rewrite orb_false_r.
Qed.

(** ** The two summarizers *)

(** X19: the pipeline and the heuristic summarizer speak with one voice.
    For every language value they put the same introduction before a
    summary and give the same no-results message, and the text the
    generator composes from no sentence is the heuristic summarizer's
    [no_content] message. *)
Theorem summarizers_share_messages (language : value) (tag summary : text) :
  SummaryGeneratorAgent._format_summary_for_language summary language
  = AISearchSummarizer._format_summary_for_language summary language
  /\ table_get AgenticSummarizer.no_results_messages language
       §"📝 **AI Summary**: Information on this topic is currently not available."
     = AISearchSummarizer._get_default_message language §"no_results"
  /\ AISearchSummarizer._get_default_message (VStr tag) §"no_content"
     = Returned (empty_summary tag).
Proof.
  split; [|split].
  - unfold SummaryGeneratorAgent._format_summary_for_language,
      AISearchSummarizer._format_summary_for_language.
    assert (Htab : SummaryGeneratorAgent.prefixes = AISearchSummarizer.intros)
      by (vm_compute; reflexivity).
    by rewrite Htab.
  - unfold AISearchSummarizer._get_default_message, table_get.
    destruct (hashable language); cbn [negb]; [|reflexivity].
    destruct language as [| | | |l| | |]; cbn [obind]; try (vm_compute; reflexivity).
    f_equal.
    unfold AgenticSummarizer.no_results_messages, AISearchSummarizer.messages.
    rewrite !table_lookup_four.
    destruct (text_eqb l §"hindi"); [vm_compute; reflexivity|].
    destruct (text_eqb l §"telugu"); [vm_compute; reflexivity|].
    destruct (text_eqb l §"marathi"); [vm_compute; reflexivity|].
    destruct (text_eqb l §"english"); vm_compute; reflexivity.
  - unfold AISearchSummarizer._get_default_message. rewrite table_get_str.
    cbn [obind]. f_equal.
    unfold empty_summary, SummaryGeneratorAgent.prefixes,
      SummaryGeneratorAgent.no_content_messages, AISearchSummarizer.messages.
    rewrite !table_lookup_four.
    destruct (text_eqb tag §"hindi"); [vm_compute; reflexivity|].
    destruct (text_eqb tag §"telugu"); [vm_compute; reflexivity|].
    destruct (text_eqb tag §"marathi"); [vm_compute; reflexivity|].
    destruct (text_eqb tag §"english"); vm_compute; reflexivity.
Qed.
